(** * RealFi community hub: ledger, governance and dashboard handlers

    A shallow embedding of the request handlers of the finance route
    (userBalances / transactions), of the governance route
    (proposals / votes / communityGoals) and of
    [IntegrationManager.getDashboardData] with the statistics methods of
    the nine integration SDKs it calls.

    Conventions of the embedding.
    - The process-wide [Map]s of a route are a record of [gmap string _];
      a handler is a function from the store to a response and the next
      store.
    - A JavaScript number that holds money or a ratio is an exact rational
      ([Qc]): rounding of IEEE doubles, NaN and the infinities are left
      out.  Counters that only ever receive [++] or [+= 1] from an integer
      start, and epoch milliseconds, are [Z].
    - [Date.now()], [new Date()] and [Math.random()] are read from an
      environment record that comes with the request; one request sees one
      instant.
    - [NextResponse.json(body, {status})] is a constructor of the route's
      response type; a failure keeps the status code and the error text of
      the source.
    - A request body is well formed: [data] carries the fields its action
      reads, amounts are numbers of either sign, ids and choices are
      strings. *)

From Stdlib Require Import QArith Qcanon Qround ZArith String List Lia.
From Stdlib Require Import Sorting.Sorted Permutation.
From stdpp Require Import gmap strings list fin_maps numbers pretty.

Local Open Scope Z_scope.
Local Open Scope string_scope.
Local Open Scope Qc_scope.

(** ** Numbers *)

Module Num.

(** The decimal literal [n / d], e.g. [0.005] is [dec 5 1000]. *)
Definition dec (n : Z) (d : positive) : Qc := Q2Qc (n # d).

Definition ofZ (n : Z) : Qc := Q2Qc (inject_Z n).

(** [x < y] on numbers, as a boolean. *)
Definition ltb (x y : Qc) : bool :=
  (Qnum x * Zpos (Qden y) <? Qnum y * Zpos (Qden x))%Z.

Definition floor (x : Qc) : Z := Qfloor x.

End Num.

(** ** What a request reads from the clock and the random source *)

Record Env := mkEnv {
  now : Z;             (* Date.now(), in milliseconds since the epoch *)
  randomTag : string;  (* Math.random().toString(36).substr(2, 9), for ids *)
  randomLink : string; (* Math.random().toString(...).substr(2, n), for the
                          wallet address and the payment link *)
  random : Qc          (* Math.random(), a number in [0, 1) *)
}.

(** ** The finance route *)

Module Finance.

Record Balance := mkBalance {
  gBalance : Qc;
  usdBalance : Qc;
  savings : Qc;
  walletAddress : option string;
  lastClaim : option Z
}.

Inductive TxType := ubi_claim | payment | savings_deposit.

Record Transaction := mkTransaction {
  txId : string;
  txType : TxType;
  amount : Qc;
  currency : string;
  recipient : option string;
  fee : option Qc;
  paymentLink : option string;
  interestRate : option Z;
  timestamp : Z;
  status : string
}.

Record Store := mkStore {
  userBalances : gmap string Balance;
  transactions : gmap string (list Transaction)
}.

Definition empty : Store := mkStore ∅ ∅.

Inductive Action :=
| connect_human_wallet
| claim_ubi
| send_payment (recipient : string) (amount : Qc) (currency : string)
| deposit_savings (depositAmount : Qc)
| other_action (name : string).

Inductive Response :=
| WalletConnected (walletAddress : string)
| Claimed (transaction : Transaction) (newBalance : Qc)
| PaymentSent (transaction : Transaction) (remainingBalance : Qc)
| Deposited (transaction : Transaction) (totalSavings : Qc)
| Failure (httpStatus : Z) (error : string).

(** [{ gBalance: 0, usdBalance: 0, savings: 0 }] *)
Definition zeroBalance : Balance := mkBalance 0 0 0 None None.

Definition ubiAmount : Qc := Num.ofZ 10.

Definition newTxId (e : Env) : string :=
  "tx_" +:+ pretty (now e) +:+ "_" +:+ randomTag e.

(** [if (!transactions.has(userId)) transactions.set(userId, []);
    transactions.get(userId).push(tx)] *)
Definition record (userId : string) (tx : Transaction)
    (log : gmap string (list Transaction)) : gmap string (list Transaction) :=
  <[userId := (default [] (log !! userId) ++ [tx])%list]> log.

Definition setGBalance (b : Balance) (g : Qc) : Balance :=
  mkBalance g (usdBalance b) (savings b) (walletAddress b) (lastClaim b).

Definition POST (e : Env) (userId : string) (a : Action) (s : Store)
    : Response * Store :=
  match a with
  | connect_human_wallet =>
      let walletAddress := "0x" +:+ randomLink e in
      let balances :=
        match userBalances s !! userId with
        | Some _ => userBalances s
        | None =>
            <[userId := mkBalance 0 0 0 (Some walletAddress) None]>
              (userBalances s)
        end in
      (WalletConnected walletAddress, mkStore balances (transactions s))
  | claim_ubi =>
      let userBalance := default zeroBalance (userBalances s !! userId) in
      let newBalance := gBalance userBalance + ubiAmount in
      let balances :=
        <[userId := mkBalance newBalance (usdBalance userBalance)
                      (savings userBalance) (walletAddress userBalance)
                      (Some (now e))]> (userBalances s) in
      let transaction :=
        mkTransaction (newTxId e) ubi_claim ubiAmount "G$" None None None
          None (now e) "completed" in
      (Claimed transaction newBalance,
       mkStore balances (record userId transaction (transactions s)))
  | send_payment recipient amount currency =>
      match userBalances s !! userId with
      | None => (Failure 400 "Insufficient balance", s)
      | Some senderBalance =>
          if Num.ltb (gBalance senderBalance) amount
          then (Failure 400 "Insufficient balance", s)
          else
            let fee := amount * Num.dec 5 1000 in
            let totalDeduction := amount + fee in
            let updated :=
              setGBalance senderBalance
                (gBalance senderBalance - totalDeduction) in
            let balances := <[userId := updated]> (userBalances s) in
            let paymentLink :=
              "https://peanut.to/claim/" +:+ randomLink e in
            let paymentTx :=
              mkTransaction (newTxId e) payment amount currency
                (Some recipient) (Some fee) (Some paymentLink) None
                (now e) "completed" in
            (PaymentSent paymentTx (gBalance updated),
             mkStore balances (record userId paymentTx (transactions s)))
      end
  | deposit_savings depositAmount =>
      match userBalances s !! userId with
      | None => (Failure 400 "Insufficient balance for deposit", s)
      | Some currentBalance =>
          if Num.ltb (gBalance currentBalance) depositAmount
          then (Failure 400 "Insufficient balance for deposit", s)
          else
            let updated :=
              mkBalance (gBalance currentBalance - depositAmount)
                (usdBalance currentBalance)
                (savings currentBalance + depositAmount)
                (walletAddress currentBalance) (lastClaim currentBalance) in
            let balances := <[userId := updated]> (userBalances s) in
            let savingsTx :=
              mkTransaction (newTxId e) savings_deposit depositAmount "G$"
                None None None (Some 5%Z) (now e) "completed" in
            (Deposited savingsTx (savings updated),
             mkStore balances (record userId savingsTx (transactions s)))
      end
  | other_action _ => (Failure 400 "Unknown action", s)
  end.

(** The body of a successful [get-balance] response:
    [{ ...balance, gUSDValue, savingsUSDValue, projectedAnnualReturn }]. *)
Record BalanceView := mkBalanceView {
  balance : Balance;
  gUSDValue : Qc;
  savingsUSDValue : Qc;
  projectedAnnualReturn : Qc
}.

Inductive GetResponse :=
| BalanceOf (view : BalanceView)
| GetFailure (httpStatus : Z) (error : string).


(** A request as the route receives it, and a run of requests in order. *)
Record Request := mkRequest {
  reqEnv : Env;
  reqUser : string;
  reqAction : Action
}.

Definition step (s : Store) (r : Request) : Store :=
  snd (POST (reqEnv r) (reqUser r) (reqAction r) s).

Definition run (rs : list Request) (s : Store) : Store :=
  fold_left step rs s.

(** What the ledger holds for a user, with the defaults the route uses
    for a user it has no record of. *)
Definition spendable (s : Store) (userId : string) : Qc :=
  gBalance (default zeroBalance (userBalances s !! userId)).

Definition savingsPrincipal (s : Store) (userId : string) : Qc :=
  savings (default zeroBalance (userBalances s !! userId)).

Definition succeeded (r : Response) : bool :=
  match r with Failure _ _ => false | _ => true end.


End Finance.

(** ** The governance route *)

Module Governance.

(** [votes: { for: 0, against: 0, abstain: 0 }].  [votes[voteType]++]
    with any other key stores NaN under that key; [notANumber] keeps
    those keys. *)
Record Tally := mkTally {
  votes_for : Z;
  votes_against : Z;
  votes_abstain : Z;
  notANumber : gset string
}.

Inductive Status := active | executed.

Record Proposal := mkProposal {
  id : string;
  title : string;
  description : string;
  category : string;
  author : string;
  createdAt : Z;
  status : Status;
  votingDeadline : Z;
  votes : Tally;
  quorum : Z;
  budget : Qc;
  executedAt : option Z
}.

Record Vote := mkVote {
  proposalId : string;
  userId : string;
  voteType : string;
  reason : string;
  timestamp : Z
}.

Record Goal := mkGoal {
  goalId : string;
  goalTitle : string;
  goalDescription : string;
  targetAmount : Qc;
  currentAmount : Qc;
  contributors : Z;
  deadline : Z;
  goalCategory : string
}.

Record Contribution := mkContribution {
  contributionId : string;
  toGoal : string;
  contributor : string;
  amount : Qc;
  contributedAt : Z;
  anonymous : bool
}.

Record Store := mkStore {
  proposals : gmap string Proposal;
  ballots : gmap string Vote;          (* const votes = new Map() *)
  communityGoals : gmap string Goal
}.

(** The three sample goals set at module load. *)
Definition solar_project : Goal :=
  mkGoal "solar-project" "Community Solar Project"
    "Install solar panels for community energy independence"
    (Num.ofZ 50000) (Num.ofZ 37500) 45 1735603200000 "infrastructure".

Definition food_coop : Goal :=
  mkGoal "food-coop" "Local Food Cooperative"
    "Establish community-owned food distribution network"
    (Num.ofZ 25000) (Num.ofZ 15000) 32 1732924800000 "food_security".

Definition education_fund : Goal :=
  mkGoal "education-fund" "Education Fund"
    "Support community education and skill development"
    (Num.ofZ 15000) (Num.ofZ 13500) 28 1730332800000 "education".

Definition initial : Store :=
  mkStore ∅ ∅
    (<["education-fund" := education_fund]>
       (<["food-coop" := food_coop]>
          (<["solar-project" := solar_project]> ∅))).

Inductive Action :=
| create_proposal (title description category : string) (budget : Qc)
| vote (propId voteType : string) (reason : option string)
| contribute_to_goal (goalId : string) (amount : Qc) (anonymous : bool)
| execute_proposal (execPropId : string)
| other_action (name : string).

Inductive Response :=
| ProposalCreated (proposal : Proposal)
| VoteRecorded (vote : Vote) (currentVotes : Tally)
| Contributed (contribution : Contribution) (updatedGoal : Goal)
    (percentageFunded : string)
| Executed (proposal : Proposal) (executionId : string)
| Failure (httpStatus : Z) (error : string).

(** The key of the [votes] map: the template [`${propId}_${userId}`]. *)
Definition voteKey (propId userId : string) : string :=
  propId +:+ "_" +:+ userId.

(** [votes[voteType]++] *)
Definition increment (voteType : string) (t : Tally) : Tally :=
  if decide (voteType = "for") then
    mkTally (votes_for t + 1) (votes_against t) (votes_abstain t)
      (notANumber t)
  else if decide (voteType = "against") then
    mkTally (votes_for t) (votes_against t + 1) (votes_abstain t)
      (notANumber t)
  else if decide (voteType = "abstain") then
    mkTally (votes_for t) (votes_against t) (votes_abstain t + 1)
      (notANumber t)
  else
    mkTally (votes_for t) (votes_against t) (votes_abstain t)
      ({[voteType]} ∪ notANumber t).

Definition setVotes (p : Proposal) (t : Tally) : Proposal :=
  mkProposal (id p) (title p) (description p) (category p) (author p)
    (createdAt p) (status p) (votingDeadline p) t (quorum p) (budget p)
    (executedAt p).

Definition markExecuted (p : Proposal) (at_ : Z) : Proposal :=
  mkProposal (id p) (title p) (description p) (category p) (author p)
    (createdAt p) executed (votingDeadline p) (votes p) (quorum p)
    (budget p) (Some at_).

(** [x.toFixed(1)]: the nearest multiple of one tenth, the larger one on
    a tie, written with the sign first and one digit after the point. *)
Definition tenths (x : Qc) : Z :=
  Num.floor (x * Num.ofZ 10 + Num.dec 1 2).

Definition oneDecimal (n : Z) : string :=
  pretty (n / 10)%Z +:+ "." +:+ pretty (n mod 10)%Z.

Definition toFixed1 (x : Qc) : string :=
  if Num.ltb x 0 then "-" +:+ oneDecimal (tenths (- x))
  else oneDecimal (tenths x).

(** [goal.currentAmount / goal.targetAmount * 100]; the three goals of
    the route have a non-zero target and no request changes a target. *)
Definition fundedRatio (g : Goal) : Qc :=
  currentAmount g / targetAmount g * Num.ofZ 100.

Definition totalVotes (t : Tally) : Z :=
  votes_for t + votes_against t + votes_abstain t.

Definition passed (p : Proposal) : bool :=
  (quorum p <=? totalVotes (votes p))%Z
  && (votes_against (votes p) <? votes_for (votes p))%Z.

Definition week : Z := 7 * 24 * 60 * 60 * 1000.

Definition POST (e : Env) (user : string) (a : Action) (s : Store)
    : Response * Store :=
  match a with
  | create_proposal title description category budget =>
      let proposalId := "prop_" +:+ pretty (now e) +:+ "_" +:+ randomTag e in
      let newProposal :=
        mkProposal proposalId title description category user (now e)
          active (now e + week) (mkTally 0 0 0 ∅)
          (Num.floor (random e * Num.ofZ 20) + 10) budget None in
      (ProposalCreated newProposal,
       mkStore (<[proposalId := newProposal]> (proposals s)) (ballots s)
         (communityGoals s))
  | vote propId voteType reason =>
      match proposals s !! propId with
      | None => (Failure 404 "Proposal not found", s)
      | Some existingProposal =>
          match ballots s !! voteKey propId user with
          | Some _ =>
              (Failure 400 "You have already voted on this proposal", s)
          | None =>
              if (votingDeadline existingProposal <? now e)%Z
              then (Failure 400 "Voting period has ended", s)
              else
                let vote :=
                  mkVote propId user voteType (default "" reason) (now e) in
                let counted :=
                  setVotes existingProposal
                    (increment voteType (votes existingProposal)) in
                (VoteRecorded vote (votes counted),
                 mkStore (<[propId := counted]> (proposals s))
                   (<[voteKey propId user := vote]> (ballots s))
                   (communityGoals s))
          end
      end
  | contribute_to_goal goalId amount anonymous =>
      match communityGoals s !! goalId with
      | None => (Failure 404 "Community goal not found", s)
      | Some goal =>
          let contributionId :=
            "contrib_" +:+ pretty (now e) +:+ "_" +:+ randomTag e in
          let contribution :=
            mkContribution contributionId goalId user amount (now e)
              anonymous in
          let updated :=
            mkGoal (Governance.goalId goal) (goalTitle goal)
              (goalDescription goal) (targetAmount goal)
              (currentAmount goal + amount) (contributors goal + 1)
              (deadline goal) (goalCategory goal) in
          (Contributed contribution updated (toFixed1 (fundedRatio updated)),
           mkStore (proposals s) (ballots s)
             (<[goalId := updated]> (communityGoals s)))
      end
  | execute_proposal execPropId =>
      match proposals s !! execPropId with
      | None => (Failure 404 "Proposal not found", s)
      | Some execProposal =>
          if passed execProposal then
            let done_ := markExecuted execProposal (now e) in
            (Executed done_ ("exec_" +:+ pretty (now e)),
             mkStore (<[execPropId := done_]> (proposals s)) (ballots s)
               (communityGoals s))
          else
            (Failure 400 "Proposal did not pass voting requirements", s)
      end
  | other_action _ => (Failure 400 "Unknown action", s)
  end.

Record Request := mkRequest {
  reqEnv : Env;
  reqUser : string;
  reqAction : Action
}.

Definition step (s : Store) (r : Request) : Store :=
  snd (POST (reqEnv r) (reqUser r) (reqAction r) s).

Definition run (rs : list Request) (s : Store) : Store :=
  fold_left step rs s.

Definition succeeded (r : Response) : bool :=
  match r with Failure _ _ => false | _ => true end.

(** The typed failures of the specification, as the route reports them. *)
Definition ProposalNotFound : Response := Failure 404 "Proposal not found".
Definition VotingClosed : Response := Failure 400 "Voting period has ended".
Definition QuorumNotMet : Response :=
  Failure 400 "Proposal did not pass voting requirements".
Definition GoalNotFound : Response := Failure 404 "Community goal not found".






(** The tally of a proposal as the store holds it. *)
Definition tallyOf (s : Store) (propId : string) : option Tally :=
  votes <$> proposals s !! propId.

Definition statusOf (s : Store) (propId : string) : option Status :=
  status <$> proposals s !! propId.

(** *** The read side ([GET]) *)

(** What a statement of the handler can throw. *)
Inductive Thrown :=
| ReferenceError (message : string).

Definition Exc (A : Type) : Type := Thrown + A.

Definition ret {A} (a : A) : Exc A := inr a.
Definition throw {A} (t : Thrown) : Exc A := inl t.
Definition bind {A B} (m : Exc A) (k : A -> Exc B) : Exc B :=
  match m with inl t => inl t | inr a => k a end.

(** A [const] of the [switch] block in [GET].  The block is one lexical
    scope for all its clauses; a binding is uninitialised until control
    has passed through its declaration, and reading it before that
    throws. *)
Inductive Binding (A : Type) :=
| Uninitialised
| Initialised (value : A).
Arguments Uninitialised {A}.
Arguments Initialised {A} value.

Definition read {A} (name : string) (b : Binding A) : Exc A :=
  match b with
  | Uninitialised =>
      throw (ReferenceError
               ("Cannot access '" +:+ name +:+ "' before initialization"))
  | Initialised v => ret v
  end.

(** [array.size]: arrays have no such property, the read is [undefined]. *)
Definition size_of_array {A} (a : list A) : option Z := None.

(** [x > 0] where [x] may be [undefined]. *)
Definition positive_number (x : option Z) : bool :=
  match x with Some n => (0 <? n)%Z | None => false end.

Record GovernanceStats := mkGovernanceStats {
  totalProposals : Z;
  activeProposals : Z;
  executedProposals : Z;
  participationRate : Qc;
  averageVotingTime : string;
  categories : list string
}.

Inductive GetAction :=
| get_proposal (proposalId : option string)
| get_user_votes
| get_governance_stats
| other_get (name : string).

Inductive GetResponse :=
| ProposalView (proposal : Proposal) (userVote : option Vote)
    (canVote : bool) (votingEnds : Z)
| UserVotes (votes : list Vote) (totalVotes : Z)
| Stats (stats : GovernanceStats)
| GetFailure (httpStatus : Z) (error : string).

Definition isActive (p : Proposal) : bool :=
  match status p with active => true | executed => false end.

Definition isExecuted (p : Proposal) : bool :=
  match status p with executed => true | active => false end.

(** [`${proposalId}_${userId}`] where [userId] is [null] when the query
    has none. *)
Definition queryUser (userId : option string) : string :=
  default "null" userId.

(** The [try] block of [GET].  [userVotes] is declared in the
    [get-user-votes] clause only; the listing of that clause is in the
    order of the map's keys here, in insertion order in the source. *)
Definition GET_try (e : Env) (a : GetAction) (userId : option string)
    (s : Store) : Exc GetResponse :=
  let userVotes_at_entry : Binding (list Vote) := Uninitialised in
  match a with
  | get_proposal None | get_proposal (Some "") =>
      ret (GetFailure 400 "Proposal ID required")
  | get_proposal (Some proposalId) =>
      match proposals s !! proposalId with
      | None => ret (GetFailure 404 "Proposal not found")
      | Some proposal =>
          let userVote := ballots s !! voteKey proposalId (queryUser userId) in
          ret (ProposalView proposal userVote
                 (negb (bool_decide (is_Some userVote))
                  && (now e <? votingDeadline proposal)%Z)
                 (votingDeadline proposal))
      end
  | get_user_votes =>
      match userId with
      | None | Some "" => ret (GetFailure 400 "User ID required")
      | Some u =>
          let userVotes :=
            Initialised
              (List.filter (fun v => bool_decide (Governance.userId v = u))
                 (snd <$> map_to_list (ballots s))) in
          bind (read "userVotes" userVotes) (fun l =>
          ret (UserVotes l (Z.of_nat (length l))))
      end
  | get_governance_stats =>
      let allProposals := snd <$> map_to_list (proposals s) in
      let activeProposals := List.filter isActive allProposals in
      let executedProposals := List.filter isExecuted allProposals in
      bind (read "userVotes" userVotes_at_entry) (fun userVotes =>
      ret (Stats
             (mkGovernanceStats
                (Z.of_nat (length allProposals))
                (Z.of_nat (length activeProposals))
                (Z.of_nat (length executedProposals))
                (if positive_number (size_of_array userVotes) then
                   match size_of_array userVotes with
                   | Some n =>
                       Num.ofZ n
                       / Num.ofZ (Z.of_nat (length allProposals) * 10)
                       * Num.ofZ 100
                   | None => 0
                   end
                 else 0)
                "3.2 days"
                ["infrastructure"; "finance"; "governance"; "community";
                 "education"])))
  | other_get _ => ret (GetFailure 400 "Unknown action")
  end.

(** [try { ... } catch (error) { return 500 }] *)
Definition GET (e : Env) (a : GetAction) (userId : option string)
    (s : Store) : GetResponse :=
  match GET_try e a userId s with
  | inr response => response
  | inl _ => GetFailure 500 "Internal server error"
  end.

End Governance.

(** ** The integration manager and the statistics methods it calls *)

Module Integrations.

(** The JSON-like values the statistics methods pass around. *)
#[local] Unset Elimination Schemes.
Inductive Value :=
| Undefined
| Null
| Bool (b : bool)
| Number (q : Qc)
| Text (s : string)
| Array (items : list Value)
| Object (fields : list (string * Value)).
#[local] Set Elimination Schemes.

(** A settled promise: rejected with an error, or resolved. *)
Definition Promise (A : Type) : Type := Value + A.

Definition resolve {A} (a : A) : Promise A := inr a.
Definition reject {A} (error : Value) : Promise A := inl error.

(** [const x = await p; k x] inside an async function. *)
Definition await {A B} (p : Promise A) (k : A -> Promise B) : Promise B :=
  match p with inl error => inl error | inr a => k a end.

(** [try { body } catch (error) { handler }] *)
Definition try_catch {A} (body : Promise A) (handler : Value -> Promise A)
    : Promise A :=
  match body with inl error => handler error | inr a => inr a end.

Definition truthy (v : Value) : bool :=
  match v with
  | Undefined | Null => false
  | Bool b => b
  | Number q => negb (bool_decide (q = 0))
  | Text s => negb (bool_decide (s = ""))
  | Array _ | Object _ => true
  end.

Fixpoint lookup_field (key : string) (fields : list (string * Value))
    : Value :=
  match fields with
  | [] => Undefined
  | (k, v) :: rest =>
      if decide (k = key) then v else lookup_field key rest
  end.

(** [response.key]: a TypeError on [undefined] and [null], [undefined]
    when there is no such field. *)
Definition member (response : Value) (key : string) : Promise Value :=
  match response with
  | Undefined | Null =>
      reject (Text ("Cannot read properties of undefined (reading '"
                    +:+ key +:+ "')"))
  | Object fields => resolve (lookup_field key fields)
  | _ => resolve Undefined
  end.

(** [a || b] *)
Definition or_else (a b : Value) : Value := if truthy a then a else b.

(** The object literal [{ k1: response.k1 || d1, ..., kn: response.kn || dn }],
    its fields evaluated in order. *)
Fixpoint with_defaults (response : Value)
    (defaults : list (string * Value)) : Promise (list (string * Value)) :=
  match defaults with
  | [] => resolve []
  | (key, d) :: rest =>
      await (member response key) (fun v =>
      await (with_defaults response rest) (fun fields =>
      resolve ((key, or_else v d) :: fields)))
  end.

(** The shape shared by the nine methods:
    [try { const response = await this.mockCall(...);
           return { k: response.k || d, ... } }
     catch (error) { return placeholder }]. *)
Definition stats_method (backend : Promise Value)
    (defaults placeholder : list (string * Value)) : Promise Value :=
  try_catch
    (await backend (fun response =>
     await (with_defaults response defaults) (fun fields =>
     resolve (Object fields))))
    (fun _ => resolve (Object placeholder)).

Definition num (n : Z) : Value := Number (Num.ofZ n).
Definition texts (l : list string) : Value := Array (Text <$> l).
Definition counted (key : string) (l : list (string * Z)) : Value :=
  Array ((fun p => Object [(key, Text (fst p)); ("count", num (snd p))])
           <$> l).

Module HumanProtocol.
Definition fields : list (string * Value) :=
  [("totalVerified", num 125000);
   ("avgUniquenessScore", Number (Num.dec 85 100));
   ("sybilResistanceRate", Number (Num.dec 97 100))].
Definition getVerificationStats (mockHumanAPICall : Promise Value) :=
  stats_method mockHumanAPICall fields fields.
End HumanProtocol.

Module GoodDollar.
Definition fields : list (string * Value) :=
  [("totalDistributed", Text "250000000");
   ("activeClaimers", num 250000);
   ("averageDailyClaim", Text "10");
   ("countriesReached", num 180)].
Definition getUBIStats (mockGoodDollarCall : Promise Value) :=
  stats_method mockGoodDollarCall fields fields.
End GoodDollar.

Module Nillion.
Definition fields : list (string * Value) :=
  [("totalStorage", num 1250000000);
   ("activeComputations", num 42);
   ("privacyScore", Number (Num.dec 98 100));
   ("networkNodes", num 127)].
Definition getNetworkStats (mockNillionCall : Promise Value) :=
  stats_method mockNillionCall fields fields.
End Nillion.

Module Tor.
Definition fields : list (string * Value) :=
  [("totalNodes", num 7500);
   ("activeConnections", num 2500000);
   ("totalBandwidth", num 500);
   ("averageLatency", num 150);
   ("countries", texts ["US"; "DE"; "FR"; "NL"; "RU"; "CN"]);
   ("uptime", Number (Num.dec 998 10))].
Definition getNetworkStats (mockTorCall : Promise Value) :=
  stats_method mockTorCall fields fields.
End Tor.

Module EdgeCity.
Definition fields : list (string * Value) :=
  [("totalNodes", num 127);
   ("onlineNodes", num 124);
   ("averageLatency", num 45);
   ("totalRequests", num 1500000);
   ("networkUptime", Number (Num.dec 9997 100));
   ("regions", texts ["US"; "EU"; "APAC"; "LATAM"])].
Definition getNetworkMetrics (mockEdgeCityCall : Promise Value) :=
  stats_method mockEdgeCityCall fields fields.
End EdgeCity.

Module Logos.
Definition defaults : list (string * Value) :=
  [("totalNames", num 125000);
   ("activeIdentities", num 87000);
   ("totalEndorsements", num 450000);
   ("averageReputation", num 625);
   ("topTlds",
    counted "tld"
      [("logos", 45000); ("eth", 32000); ("crypto", 18000);
       ("web3", 12000); ("defi", 8000)]%Z)].
Definition placeholder : list (string * Value) :=
  [("totalNames", num 125000);
   ("activeIdentities", num 87000);
   ("totalEndorsements", num 450000);
   ("averageReputation", num 625);
   ("topTlds",
    counted "tld" [("logos", 45000); ("eth", 32000); ("crypto", 18000)]%Z)].
Definition getNetworkStats (mockLogosCall : Promise Value) :=
  stats_method mockLogosCall defaults placeholder.
End Logos.

Module Bento.
Definition defaults : list (string * Value) :=
  [("totalProfiles", num 2500000);
   ("activeProfiles", num 1875000);
   ("totalConnections", num 12500000);
   ("averageReputation", num 625);
   ("topSkills",
    counted "skill"
      [("Web3 Development", 45000); ("Smart Contracts", 38000);
       ("DeFi", 32000); ("UI/UX Design", 28000);
       ("Community Management", 22000)]%Z);
   ("countries",
    texts ["US"; "UK"; "Germany"; "Canada"; "Australia"; "Singapore"])].
Definition placeholder : list (string * Value) :=
  [("totalProfiles", num 2500000);
   ("activeProfiles", num 1875000);
   ("totalConnections", num 12500000);
   ("averageReputation", num 625);
   ("topSkills",
    counted "skill"
      [("Web3 Development", 45000); ("Smart Contracts", 38000);
       ("DeFi", 32000)]%Z);
   ("countries", texts ["US"; "UK"; "Germany"; "Canada"; "Australia"])].
Definition getNetworkStats (mockBentoCall : Promise Value) :=
  stats_method mockBentoCall defaults placeholder.
End Bento.

Module InternetArchive.
Definition fields : list (string * Value) :=
  [("totalItems", num 85000000000);
   ("totalSize", num 99);
   ("preservedItems", num 75000000000);
   ("locations", texts ["US-East"; "US-West"; "EU-West"; "EU-North"; "APAC"]);
   ("averageIntegrity", Number (Num.dec 997 10));
   ("dailySnapshots", num 1500000)].
Definition getNetworkStats (mockArchiveCall : Promise Value) :=
  stats_method mockArchiveCall fields fields.
End InternetArchive.

Module NumbersProtocol.
Definition defaults : list (string * Value) :=
  [("totalAssets", num 2500000);
   ("verifiedAssets", num 1875000);
   ("certificatesIssued", num 3200000);
   ("supportedFormats",
    texts ["JPEG"; "PNG"; "GIF"; "MP4"; "MP3"; "PDF"; "GLB"]);
   ("averageVerificationScore", Number (Num.dec 87 100))].
Definition placeholder : list (string * Value) :=
  [("totalAssets", num 2500000);
   ("verifiedAssets", num 1875000);
   ("certificatesIssued", num 3200000);
   ("supportedFormats", texts ["JPEG"; "PNG"; "GIF"; "MP4"; "MP3"; "PDF"]);
   ("averageVerificationScore", Number (Num.dec 87 100))].
Definition getNetworkStats (mockNumbersCall : Promise Value) :=
  stats_method mockNumbersCall defaults placeholder.
End NumbersProtocol.

(** The external services behind the SDKs. *)
Inductive Collaborator :=
| humanProtocol | goodDollar | nillion | torProject | edgeCity
| logos | bento | internetArchive | numbersProtocol.

(** How the request of each SDK to its service settles. *)
Definition Backends : Type := Collaborator -> Promise Value.

(** The statistics call of a collaborator, given how its service
    answers. *)
Definition stats (c : Collaborator) (backend : Promise Value)
    : Promise Value :=
  match c with
  | humanProtocol => HumanProtocol.getVerificationStats backend
  | goodDollar => GoodDollar.getUBIStats backend
  | nillion => Nillion.getNetworkStats backend
  | torProject => Tor.getNetworkStats backend
  | edgeCity => EdgeCity.getNetworkMetrics backend
  | logos => Logos.getNetworkStats backend
  | bento => Bento.getNetworkStats backend
  | internetArchive => InternetArchive.getNetworkStats backend
  | numbersProtocol => NumbersProtocol.getNetworkStats backend
  end.

(** What the [catch] block of a collaborator's statistics call returns. *)
Definition placeholder (c : Collaborator) : Value :=
  Object
    match c with
    | humanProtocol => HumanProtocol.fields
    | goodDollar => GoodDollar.fields
    | nillion => Nillion.fields
    | torProject => Tor.fields
    | edgeCity => EdgeCity.fields
    | logos => Logos.placeholder
    | bento => Bento.placeholder
    | internetArchive => InternetArchive.fields
    | numbersProtocol => NumbersProtocol.placeholder
    end.

(** [Promise.all]: the array of the results, or the first rejection. *)
Fixpoint Promise_all {A} (ps : list (Promise A)) : Promise (list A) :=
  match ps with
  | [] => resolve []
  | p :: rest =>
      await p (fun a =>
      await (Promise_all rest) (fun results => resolve (a :: results)))
  end.

(** [const [x0, x1, ...] = results]: a missing element is [undefined]. *)
Definition element (results : list Value) (i : nat) : Value :=
  nth i results Undefined.

Definition getDashboardData (b : Backends) : Promise Value :=
  await
    (Promise_all
       [stats humanProtocol (b humanProtocol);
        stats goodDollar (b goodDollar);
        stats nillion (b nillion);
        stats torProject (b torProject);
        stats edgeCity (b edgeCity);
        stats logos (b logos);
        stats bento (b bento)])
    (fun results =>
     let humanStats := element results 0 in
     let goodDollarStats := element results 1 in
     let nillionStats := element results 2 in
     let torStats := element results 3 in
     let edgeCityStats := element results 4 in
     let logosStats := element results 5 in
     let bentoStats := element results 6 in
     await (stats internetArchive (b internetArchive)) (fun archiveStats =>
     await (stats numbersProtocol (b numbersProtocol)) (fun numbersStats =>
     resolve
       (Object
          [("identity",
            Object [("humanProtocol", humanStats); ("logos", logosStats);
                    ("bento", bentoStats)]);
           ("finance", Object [("goodDollar", goodDollarStats)]);
           ("privacy",
            Object [("nillion", nillionStats); ("tor", torStats)]);
           ("infrastructure",
            Object [("edgeCity", edgeCityStats);
                    ("internetArchive", archiveStats)]);
           ("reputation", Object [("numbersProtocol", numbersStats)])])))).

(** Where the snapshot keeps the statistics of a collaborator. *)
Definition path (c : Collaborator) : string * string :=
  match c with
  | humanProtocol => ("identity", "humanProtocol")
  | logos => ("identity", "logos")
  | bento => ("identity", "bento")
  | goodDollar => ("finance", "goodDollar")
  | nillion => ("privacy", "nillion")
  | torProject => ("privacy", "tor")
  | edgeCity => ("infrastructure", "edgeCity")
  | internetArchive => ("infrastructure", "internetArchive")
  | numbersProtocol => ("reputation", "numbersProtocol")
  end.

Definition field_of (v : Value) (key : string) : Value :=
  match v with Object fields => lookup_field key fields | _ => Undefined end.

Definition section_of (snapshot : Value) (c : Collaborator) : Value :=
  field_of (field_of snapshot (fst (path c))) (snd (path c)).

(** The object [getDashboardData] returns, by its nine leaves. *)
Definition snapshot (human good nil tor edge log ben arch numb : Value)
    : Value :=
  Object
    [("identity",
      Object [("humanProtocol", human); ("logos", log); ("bento", ben)]);
     ("finance", Object [("goodDollar", good)]);
     ("privacy", Object [("nillion", nil); ("tor", tor)]);
     ("infrastructure",
      Object [("edgeCity", edge); ("internetArchive", arch)]);
     ("reputation", Object [("numbersProtocol", numb)])].

End Integrations.

(** ** Concrete requests used in the statements below *)

Module Scenario.

Definition day : Z := 24 * 60 * 60 * 1000.
Definition hour : Z := 60 * 60 * 1000.

(** 1 November 2024, 00:00 UTC. *)
Definition t0 : Z := 1730419200000.

Definition at_ (t : Z) : Env :=
  mkEnv t "k3j9x0q2a" "7f3a9c51e2b84d06" (Num.dec 1 4).

(** The finance route: one user claiming once a day. *)
Definition claim_on_day (i : nat) : Finance.Request :=
  Finance.mkRequest (at_ (t0 + Z.of_nat i * day)) "alice" Finance.claim_ubi.

Definition daily_claims (n : nat) : list Finance.Request :=
  claim_on_day <$> seq 0 n.

Definition alice_deposits (t : Z) (a : Qc) : Finance.Request :=
  Finance.mkRequest (at_ t) "alice" (Finance.deposit_savings a).

Definition alice_pays_bob (a : Qc) : Finance.Action :=
  Finance.send_payment "bob" a "G$".

(** Ten claims: a spendable balance of 100. *)
Definition ledger_100 : Finance.Store :=
  Finance.run (daily_claims 10) Finance.empty.

(** Eleven claims and a deposit of 9.50: a spendable balance of 100.50. *)
Definition ledger_100_50 : Finance.Store :=
  Finance.run
    (daily_claims 11 ++ [alice_deposits (t0 + 11 * day) (Num.dec 950 100)])
    Finance.empty.

(** Eleven claims and a deposit of 9.51: a spendable balance of 100.49. *)
Definition ledger_100_49 : Finance.Store :=
  Finance.run
    (daily_claims 11 ++ [alice_deposits (t0 + 11 * day) (Num.dec 951 100)])
    Finance.empty.

(** One claim: a spendable balance of 10. *)
Definition ledger_10 : Finance.Store :=
  Finance.run (daily_claims 1) Finance.empty.

(** The governance route: carol's proposal, drawn with quorum 15
    (Math.random() = 0.25), and the voters voter1, voter2, ... *)
Definition carol_proposes : Governance.Request :=
  Governance.mkRequest (at_ t0) "carol"
    (Governance.create_proposal "Community garden"
       "Turn the empty lot into a garden" "community" (Num.ofZ 500)).

Definition garden : string := "prop_1730419200000_k3j9x0q2a".

Definition voter (i : nat) : string := "voter" +:+ pretty i.

Definition ballot (choice : string) (i : nat) : Governance.Request :=
  Governance.mkRequest (at_ (t0 + Z.of_nat i * hour)) (voter i)
    (Governance.vote garden choice None).

(** Seven votes for and seven against. *)
Definition fourteen_ballots : list Governance.Request :=
  (ballot "for" <$> seq 1 7) ++ (ballot "against" <$> seq 8 7).

Definition after_14_votes : Governance.Store :=
  Governance.run (carol_proposes :: fourteen_ballots) Governance.initial.

Definition after_15_votes : Governance.Store :=
  Governance.step after_14_votes (ballot "for" 15).

Definition carol_executes : Governance.Request :=
  Governance.mkRequest (at_ (t0 + day)) "carol"
    (Governance.execute_proposal garden).

Definition after_execution : Governance.Store :=
  Governance.step after_15_votes carol_executes.

(** A vote two days after creation, five days before the deadline. *)
Definition dave_votes : Governance.Request :=
  Governance.mkRequest (at_ (t0 + 2 * day)) "dave"
    (Governance.vote garden "for" None).


(** The services behind the SDKs, with the one behind Nillion down:
    its request rejects, the human-protocol service reports 130000
    verified users and the others answer with an empty object. *)
Definition nillion_down : Integrations.Backends :=
  fun c =>
    match c with
    | Integrations.nillion =>
        Integrations.reject (Integrations.Text "connect ECONNREFUSED")
    | Integrations.humanProtocol =>
        Integrations.resolve
          (Integrations.Object
             [("totalVerified", Integrations.num 130000)])
    | _ => Integrations.resolve (Integrations.Object [])
    end.

End Scenario.

(** ** The finance route: reading the transaction log *)

Module FinanceQueries.
Import Finance.

(** [userTransactions.sort((a, b) => new Date(b.timestamp).getTime()
    - new Date(a.timestamp).getTime())].  [Array.prototype.sort] is
    stable and sorts the array in place: of two transactions the one with
    the later timestamp comes first, and two with the same timestamp keep
    their order. *)
Fixpoint insert_by_time (x : Transaction) (l : list Transaction)
    : list Transaction :=
  match l with
  | [] => [x]
  | y :: rest =>
      if (timestamp y <=? timestamp x)%Z then x :: y :: rest
      else y :: insert_by_time x rest
  end.

Definition sort_newest_first (l : list Transaction) : list Transaction :=
  foldr insert_by_time [] l.

Inductive Response :=
| Transactions (transactions : list Transaction) (totalCount : Z)
| Failure (httpStatus : Z) (error : string).

(** [GET ?action=get-transactions&userId=...].  The array of the user is
    sorted where it is stored; for a user without a log the response holds
    a fresh empty array and nothing is stored. *)
Definition get_transactions (userId : option string) (s : Store)
    : Response * Store :=
  match userId with
  | None | Some "" => (Failure 400 "User ID required", s)
  | Some u =>
      match transactions s !! u with
      | None => (Transactions [] 0, s)
      | Some userTransactions =>
          let sorted := sort_newest_first userTransactions in
          (Transactions sorted (Z.of_nat (length sorted)),
           mkStore (userBalances s) (<[u := sorted]> (Finance.transactions s)))
      end
  end.

(** The log of a user as the store holds it. *)
Definition logOf (s : Store) (userId : string) : list Transaction :=
  default [] (transactions s !! userId).

(** [a] is not older than [b]. *)
Definition not_older (a b : Transaction) : Prop :=
  (timestamp b <= timestamp a)%Z.

(** Every transaction is older than all that follow it. *)
Fixpoint chronological (l : list Transaction) : bool :=
  match l with
  | [] => true
  | x :: rest =>
      forallb (fun y => (timestamp x <? timestamp y)%Z) rest
      && chronological rest
  end.







End FinanceQueries.

(** ** The governance route: listing the goals, counting the ballots *)

Module GovernanceQueries.
Import Governance.









(** The number of recorded ballots that name a proposal. *)
Definition ballotsFor (s : Store) (propId : string) : nat :=
  size (filter (fun kv : string * Vote => proposalId kv.2 = propId)
          (ballots s)).

(** No counter of a tally is negative, and the three together count no
    more votes than there are ballots recorded for the proposal. *)
Definition tallies_backed (s : Store) : Prop :=
  forall propId p,
    proposals s !! propId = Some p ->
    (0 <= votes_for (votes p))%Z
    /\ (0 <= votes_against (votes p))%Z
    /\ (0 <= votes_abstain (votes p))%Z
    /\ (totalVotes (votes p) <= Z.of_nat (ballotsFor s propId))%Z.

End GovernanceQueries.

(** ** The integration manager: status checks, and the page that loads them *)

Module IntegrationStatus.
Import Integrations.

(** [private async checkXStatus(): Promise<boolean>]:
    [try { await x.stats(); return true } catch { return false }]. *)
Definition checkStatus (c : Collaborator) (backend : Promise Value)
    : Promise bool :=
  try_catch (await (stats c backend) (fun _ => resolve true))
    (fun _ => resolve false).

Record Status := mkStatus {
  connected : bool;
  features : list string;
  lastChecked : Z
}.

Definition features_of (c : Collaborator) : list string :=
  match c with
  | humanProtocol =>
      ["Identity Verification"; "Sybil Resistance"; "Reputation System"]
  | nillion => ["Private Storage"; "Secure Computation"; "Secret Sharing"]
  | edgeCity => ["Edge Computing"; "Global CDN"; "Serverless Functions"]
  | logos => ["Decentralized Names"; "Identity Management"; "Reputation"]
  | numbersProtocol =>
      ["Asset Verification"; "Provenance Tracking"; "Certificates"]
  | goodDollar => ["UBI Distribution"; "Stablecoin"; "Savings Accounts"]
  | internetArchive =>
      ["Data Preservation"; "Web Archiving"; "Permanent Storage"]
  | torProject =>
      ["Anonymous Browsing"; "Hidden Services"; "Privacy Protection"]
  | bento =>
      ["Professional Profiles"; "Credential Verification"; "Networking"]
  end.

(** [status.x = { connected: await this.checkXStatus(), features,
    lastChecked: new Date().toISOString() }] *)
Definition check (e : Env) (b : Backends) (c : Collaborator) {A}
    (k : Status -> Promise A) : Promise A :=
  await (checkStatus c (b c)) (fun connected =>
  k (mkStatus connected (features_of c) (now e))).

(** The record [getAllStatus] returns, as its keys in the order they are
    assigned. *)
Definition getAllStatus (e : Env) (b : Backends)
    : Promise (list (string * Status)) :=
  check e b humanProtocol (fun s1 =>
  check e b nillion (fun s2 =>
  check e b edgeCity (fun s3 =>
  check e b logos (fun s4 =>
  check e b numbersProtocol (fun s5 =>
  check e b goodDollar (fun s6 =>
  check e b internetArchive (fun s7 =>
  check e b torProject (fun s8 =>
  check e b bento (fun s9 =>
  resolve
    [("humanProtocol", s1); ("nillion", s2); ("edgeCity", s3);
     ("logos", s4); ("numbersProtocol", s5); ("goodDollar", s6);
     ("internetArchive", s7); ("torProject", s8); ("bento", s9)]))))))))).

(** The nine entries, all of them connected. *)
Definition all_connected (e : Env) : list (string * Status) :=
  (fun c : string * Collaborator =>
     (fst c, mkStatus true (features_of (snd c)) (now e)))
    <$> [("humanProtocol", humanProtocol); ("nillion", nillion);
         ("edgeCity", edgeCity); ("logos", logos);
         ("numbersProtocol", numbersProtocol); ("goodDollar", goodDollar);
         ("internetArchive", internetArchive); ("torProject", torProject);
         ("bento", bento)].

(** The state of the IntegrationsDashboard component and the error
    notifications it has shown. *)
Record Page := mkPage {
  status : list (string * Status);
  dashboardData : option Value;
  loading : bool;
  errorsShown : list (string * string)
}.

(** [useState({})], [useState(null)], [useState(true)] *)
Definition mounted : Page := mkPage [] None true [].

(** [Promise.all([p, q])] *)
Definition Promise_all2 {A B} (p : Promise A) (q : Promise B)
    : Promise (A * B) :=
  await p (fun a => await q (fun b => resolve (a, b))).

(** [loadDashboardData]: [setLoading(true)], then
    [try { const [statusData, dashboardData] = await Promise.all([...]);
           setStatus(statusData); setDashboardData(dashboardData) }
     catch { showError(...) } finally { setLoading(false) }].
    The two calls make their own requests: [forStatus] and [forData] are
    how the services answer each. *)
Definition loadDashboardData (e : Env) (forStatus forData : Backends)
    (page : Page) : Page :=
  let loadingPage :=
    mkPage (status page) (dashboardData page) true (errorsShown page) in
  let settled :=
    match Promise_all2 (getAllStatus e forStatus) (getDashboardData forData)
    with
    | inr (statusData, data) =>
        mkPage statusData (Some data) (loading loadingPage)
          (errorsShown loadingPage)
    | inl _ =>
        mkPage (status loadingPage) (dashboardData loadingPage)
          (loading loadingPage)
          (errorsShown loadingPage
           ++ [("Dashboard Error", "Failed to load integration data")])%list
    end in
  mkPage (status settled) (dashboardData settled) false (errorsShown settled).

End IntegrationStatus.

(** ** The GoodDollar SDK: accounts and the daily claim *)

Module GoodDollarSDK.
Import Integrations.

(** [new Error(message)], as a value that can be thrown. *)
Definition Error (message : string) : Value :=
  Object [("name", Text "Error"); ("message", Text message)].

(** [error instanceof Error ? error.message : fallback] *)
Definition message_or (error : Value) (fallback : string) : string :=
  match error with
  | Object (("name", Text "Error") :: ("message", Text m) :: _) => m
  | _ => fallback
  end.

(** A time stamp in ISO format is kept as its epoch milliseconds;
    [new Date(v).getTime()] of anything else is NaN ([None]). *)
Definition isoTime (ms : Z) : Value := Number (Num.ofZ ms).

Definition getTime (v : Value) : option Z :=
  match v with
  | Number q =>
      if decide (Qden q = 1%positive) then Some (Qnum q) else None
  | _ => None
  end.

Record Account := mkAccount {
  address : string;
  balance : Value;
  gBalance : Value;
  lastClaim : Value;
  claimStreak : Value;
  totalClaimed : Value;
  verified : Value
}.

(** [getAccount]: [null] when the service says the account does not exist
    and when the request fails. *)
Definition getAccount (walletAddress : string) (accountGet : Promise Value)
    : Promise (option Account) :=
  try_catch
    (await accountGet (fun response =>
     await (member response "exists") (fun found =>
     if negb (truthy found) then resolve None
     else
       await (member response "balance") (fun balance =>
       await (member response "g$Balance") (fun gBalance =>
       await (member response "lastClaim") (fun lastClaim =>
       await (member response "claimStreak") (fun claimStreak =>
       await (member response "totalClaimed") (fun totalClaimed =>
       await (member response "verified") (fun verified =>
       resolve
         (Some
            (mkAccount walletAddress
               (or_else balance (Text "0"))
               (or_else gBalance (Text "0"))
               (or_else lastClaim (isoTime 0))
               (or_else claimStreak (num 0))
               (or_else totalClaimed (Text "0"))
               (or_else verified (Bool false)))))))))))))
    (fun _ => resolve None).

Record UBIClaim := mkUBIClaim {
  claimId : string;
  amount : string;
  currency : string;
  claimedAt : Z;
  transactionHash : string;
  proof : string;
  claimStatus : string
}.

(** [hoursSinceLastClaim < 24] with
    [hoursSinceLastClaim = (now - lastClaimTime) / (1000 * 60 * 60)];
    a comparison with NaN is false. *)
Definition claimed_today (now_ : Z) (lastClaimTime : option Z) : bool :=
  match lastClaimTime with
  | Some t =>
      Num.ltb (Num.ofZ (now_ - t) / Num.ofZ (1000 * 60 * 60)) (Num.ofZ 24)
  | None => false
  end.

Section Claim.

(** [generateClaimProof], a SHA-256 digest of the wallet address, the
    amount, the time and a random nonce. *)
Variable generateClaimProof : Env -> string -> string -> string.

(** [claimUBI(walletAddress)], given how the [/account/get] and the
    [/ubi/claim] requests settle. *)
Definition claimUBI (e : Env) (walletAddress : string)
    (accountGet ubiClaim : Promise Value) : Promise UBIClaim :=
  try_catch
    (let claimId := "ubi_" +:+ pretty (now e) +:+ "_" +:+ randomTag e in
     let amount := "10" in
     await (getAccount walletAddress accountGet) (fun account =>
     await
       (match account with
        | Some found =>
            if claimed_today (now e) (getTime (lastClaim found))
            then
              reject
                (Error
                   "UBI already claimed today. Please wait 24 hours between claims.")
            else resolve tt
        | None => resolve tt
        end) (fun _ =>
     let claim :=
       mkUBIClaim claimId amount "G$" (now e) ("0x" +:+ randomLink e)
         (generateClaimProof e walletAddress amount) "completed" in
     await ubiClaim (fun _ => resolve claim))))
    (fun error => reject (Error (message_or error "UBI claim failed"))).

End Claim.

End GoodDollarSDK.

(** ** Further concrete requests *)

Module Cases.
Import Scenario.

(** Alice claims on ten days, bob once, then alice pays bob 100. *)
Definition bob_claims : Finance.Request :=
  Finance.mkRequest (at_ (t0 + 10 * day)) "bob" Finance.claim_ubi.

Definition alice_and_bob : Finance.Store :=
  Finance.run (daily_claims 10 ++ [bob_claims]) Finance.empty.


Definition alice_connects : Finance.Request :=
  Finance.mkRequest (at_ (t0 + 2 * day)) "alice" Finance.connect_human_wallet.

(** The instant carol's proposal closes: seven days after [t0]. *)
Definition at_deadline : Env := at_ (t0 + 604800000).


(** A stand-in for the digest of the claim proof. *)
Definition digest (e : Env) (walletAddress amount : string) : string :=
  "sha256:" +:+ walletAddress +:+ ":" +:+ amount.

(** The answer of [/account/get] for an account that claimed at [t]. *)
Definition account_claimed_at (t : Z) : list (string * Integrations.Value) :=
  [("exists", Integrations.Bool true);
   ("balance", Integrations.Text "12.50");
   ("lastClaim", GoodDollarSDK.isoTime t);
   ("claimStreak", Integrations.num 3)].

Definition claim_accepted : Integrations.Promise Integrations.Value :=
  Integrations.resolve
    (Integrations.Object [("success", Integrations.Bool true)]).

End Cases.

(** * Properties *)

(** ** Arithmetic of the number model *)

Module NumFacts.

Lemma ltb_lt (x y : Qc) : Num.ltb x y = true <-> x < y.
Proof. unfold Num.ltb, Qclt, Qlt. apply Z.ltb_lt. Qed.

Lemma ltb_ge (x y : Qc) : Num.ltb x y = false <-> y <= x.
Proof. unfold Num.ltb, Qcle, Qle. now rewrite Z.ltb_ge. Qed.

Lemma sub_nonneg (x y : Qc) : y <= x -> 0 <= x - y.
Proof.
  intros H. apply (Qcplus_le_mono_r _ _ y).
  replace (x - y + y) with x by ring. now rewrite Qcplus_0_l.
Qed.

Lemma add_nonneg (x y : Qc) : 0 <= x -> 0 <= y -> 0 <= x + y.
Proof.
  intros Hx Hy. rewrite <- (Qcplus_0_l 0). now apply Qcplus_le_compat.
Qed.

Lemma ofZ_add (a b : Z) : Num.ofZ a + Num.ofZ b = Num.ofZ (a + b).
Proof.
  apply Qc_is_canon. unfold Num.ofZ. simpl.
  rewrite !Qred_correct. unfold Qeq, inject_Z; simpl. lia.
Qed.

End NumFacts.

(** ** The ledger *)

Module FinanceFacts.
Import Finance.

Lemma spendable_insert (u : string) (b : Balance) bs log :
  spendable (mkStore (<[u := b]> bs) log) u = gBalance b.
Proof. unfold spendable; simpl. now rewrite lookup_insert_eq. Qed.

Lemma savings_insert (u : string) (b : Balance) bs log :
  savingsPrincipal (mkStore (<[u := b]> bs) log) u = savings b.
Proof. unfold savingsPrincipal; simpl. now rewrite lookup_insert_eq. Qed.

(** [claim-ubi] has one path only: it credits ten units, stamps
    [lastClaim] and reports success, whatever [lastClaim] held. *)
Lemma claim_ubi_always_credits (e : Env) (u : string) (s : Store) :
  exists tx,
    fst (POST e u claim_ubi s) = Claimed tx (spendable s u + Num.ofZ 10)
    /\ spendable (snd (POST e u claim_ubi s)) u = spendable s u + Num.ofZ 10
    /\ savingsPrincipal (snd (POST e u claim_ubi s)) u = savingsPrincipal s u
    /\ lastClaim <$> userBalances (snd (POST e u claim_ubi s)) !! u
       = Some (Some (now e)).
Proof.
  eexists. simpl. rewrite spendable_insert, savings_insert.
  rewrite lookup_insert_eq. repeat split; reflexivity.
Qed.

(** The guard of [send-payment] looks at the amount alone; the debit is
    the amount and the fee. *)
Lemma send_payment_accepts (e : Env) (u to cur : string) (a : Qc)
    (s : Store) (b : Balance) :
  userBalances s !! u = Some b ->
  a <= gBalance b ->
  exists tx,
    POST e u (send_payment to a cur) s
    = (PaymentSent tx (gBalance b - (a + a * Num.dec 5 1000)),
       mkStore
         (<[u := setGBalance b (gBalance b - (a + a * Num.dec 5 1000))]>
            (userBalances s))
         (record u tx (transactions s)))
    /\ amount tx = a
    /\ fee tx = Some (a * Num.dec 5 1000).
Proof.
  intros Hb Ha. unfold POST. rewrite Hb.
  apply NumFacts.ltb_ge in Ha. rewrite Ha. eexists; repeat split.
Qed.

Lemma send_payment_rejects (e : Env) (u to cur : string) (a : Qc)
    (s : Store) :
  (userBalances s !! u = None
   \/ exists b, userBalances s !! u = Some b /\ gBalance b < a) ->
  POST e u (send_payment to a cur) s = (Failure 400 "Insufficient balance", s).
Proof.
  intros [Hn | (b & Hb & Hlt)]; unfold POST.
  - now rewrite Hn.
  - rewrite Hb. apply NumFacts.ltb_lt in Hlt. now rewrite Hlt.
Qed.


(** A claim keeps both buckets non-negative. *)
Lemma claim_keeps_nonnegative (e : Env) (u : string) (s : Store) :
  0 <= spendable s u -> 0 <= savingsPrincipal s u ->
  0 <= spendable (snd (POST e u claim_ubi s)) u
  /\ 0 <= savingsPrincipal (snd (POST e u claim_ubi s)) u.
Proof.
  intros Hg Hs.
  destruct (claim_ubi_always_credits e u s) as (tx & _ & -> & -> & _).
  split; [|assumption]. apply NumFacts.add_nonneg; [assumption|].
  apply NumFacts.ltb_ge. reflexivity.
Qed.

(** The sibling guard of [deposit-savings] covers all that is debited:
    a deposit of a non-negative amount keeps both buckets non-negative. *)
Lemma deposit_keeps_nonnegative (e : Env) (u : string) (a : Qc) (s : Store) :
  0 <= a -> 0 <= spendable s u -> 0 <= savingsPrincipal s u ->
  0 <= spendable (snd (POST e u (deposit_savings a) s)) u
  /\ 0 <= savingsPrincipal (snd (POST e u (deposit_savings a) s)) u.
Proof.
  intros Ha Hg Hs. unfold POST.
  destruct (userBalances s !! u) as [b|] eqn:Hb; [|now split].
  destruct (Num.ltb (gBalance b) a) eqn:Hlt; [now split|].
  simpl. rewrite spendable_insert, savings_insert; simpl.
  unfold spendable, savingsPrincipal in Hg, Hs. rewrite Hb in Hg, Hs.
  simpl in Hg, Hs. apply NumFacts.ltb_ge in Hlt. split.
  - now apply NumFacts.sub_nonneg.
  - now apply NumFacts.add_nonneg.
Qed.

End FinanceFacts.

(** ** The ledger: the statements of the specification *)

Module FinanceClaims.
Import Finance Scenario.

Ltac qc_eval := apply Qc_is_canon; vm_compute; reflexivity.

(** C1: spendable balance and savings principal are meant to stay
    non-negative after every operation, and no accepted payment is meant
    to leave the spendable balance negative.  The ledger does not keep
    this: after ten claims (balance 100, savings 0) a payment of 100 is
    accepted, because the guard compares the balance with the amount and
    not with the amount plus fee, and the balance becomes -0.50. *)
Theorem payment_of_whole_balance_goes_negative :
  spendable ledger_100 "alice" = Num.ofZ 100
  /\ savingsPrincipal ledger_100 "alice" = 0
  /\ succeeded
       (fst (POST (at_ (t0 + 10 * day)) "alice"
               (alice_pays_bob (Num.ofZ 100)) ledger_100)) = true
  /\ spendable
       (snd (POST (at_ (t0 + 10 * day)) "alice"
               (alice_pays_bob (Num.ofZ 100)) ledger_100)) "alice"
     = Num.dec (-5) 10
  /\ spendable
       (snd (POST (at_ (t0 + 10 * day)) "alice"
               (alice_pays_bob (Num.ofZ 100)) ledger_100)) "alice" < 0.
Proof.
  split; [qc_eval|]. split; [qc_eval|]. split; [vm_compute; reflexivity|].
  split; [qc_eval|]. apply NumFacts.ltb_lt. vm_compute. reflexivity.
Qed.

(** C2: a payment is meant to fail with InsufficientFunds exactly when
    amount plus fee exceeds the spendable balance.  With a balance of
    100.50 a payment of 100 is accepted and leaves 0.00, as specified;
    with a balance of 100.49 the same payment is accepted too, where the
    specification wants InsufficientFunds and an unchanged balance, and
    leaves -0.01. *)
Theorem payment_of_100_from_100_49_is_accepted :
  (spendable ledger_100_50 "alice" = Num.dec 10050 100
   /\ succeeded
        (fst (POST (at_ (t0 + 12 * day)) "alice"
                (alice_pays_bob (Num.ofZ 100)) ledger_100_50)) = true
   /\ spendable
        (snd (POST (at_ (t0 + 12 * day)) "alice"
                (alice_pays_bob (Num.ofZ 100)) ledger_100_50)) "alice" = 0)
  /\
  (spendable ledger_100_49 "alice" = Num.dec 10049 100
   /\ spendable ledger_100_49 "alice"
      < Num.ofZ 100 + Num.ofZ 100 * Num.dec 5 1000
   /\ succeeded
        (fst (POST (at_ (t0 + 12 * day)) "alice"
                (alice_pays_bob (Num.ofZ 100)) ledger_100_49)) = true
   /\ spendable
        (snd (POST (at_ (t0 + 12 * day)) "alice"
                (alice_pays_bob (Num.ofZ 100)) ledger_100_49)) "alice"
      = Num.dec (-1) 100).
Proof.
  split.
  - split; [qc_eval|]. split; [vm_compute; reflexivity|qc_eval].
  - split; [qc_eval|].
    split; [apply NumFacts.ltb_lt; vm_compute; reflexivity|].
    split; [vm_compute; reflexivity|qc_eval].
Qed.

(** C3: a second claim less than 24 hours after the first is meant to
    fail with CooldownActive.  The route has no such check: two claims by
    one user one hour apart are both accepted and the balance grows by
    20, not by 10. *)
Theorem second_claim_an_hour_later_is_paid :
  succeeded (fst (POST (at_ t0) "alice" claim_ubi empty)) = true
  /\ succeeded
       (fst (POST (at_ (t0 + hour)) "alice" claim_ubi
               (snd (POST (at_ t0) "alice" claim_ubi empty)))) = true
  /\ spendable
       (snd (POST (at_ (t0 + hour)) "alice" claim_ubi
               (snd (POST (at_ t0) "alice" claim_ubi empty)))) "alice"
     = spendable empty "alice" + Num.ofZ 20.
Proof.
  destruct (FinanceFacts.claim_ubi_always_credits (at_ t0) "alice" empty)
    as (tx1 & Hr1 & Hs1 & _).
  destruct (FinanceFacts.claim_ubi_always_credits (at_ (t0 + hour)) "alice"
              (snd (POST (at_ t0) "alice" claim_ubi empty)))
    as (tx2 & Hr2 & Hs2 & _).
  rewrite Hr1, Hr2, Hs2, Hs1.
  split; [reflexivity|]. split; [reflexivity|].
  rewrite <- Qcplus_assoc, NumFacts.ofZ_add. reflexivity.
Qed.




End FinanceClaims.

(** ** The governance store *)

Module GovernanceFacts.
Import Governance.

Lemma run_app (rs1 rs2 : list Request) (s : Store) :
  run (rs1 ++ rs2) s = run rs2 (run rs1 s).
Proof. unfold run. apply fold_left_app. Qed.

Lemma run_cons (r : Request) (rs : list Request) (s : Store) :
  run (r :: rs) s = run rs (step s r).
Proof. reflexivity. Qed.






Lemma vote_success_inv (e : Env) (u pid vt : string) (why : option string)
    (s : Store) :
  succeeded (fst (POST e u (vote pid vt why) s)) = true ->
  exists p,
    proposals s !! pid = Some p
    /\ ballots s !! voteKey pid u = None
    /\ (now e <= votingDeadline p)%Z
    /\ POST e u (vote pid vt why) s
       = (VoteRecorded (mkVote pid u vt (default "" why) (now e))
            (increment vt (votes p)),
          mkStore (<[pid := setVotes p (increment vt (votes p))]> (proposals s))
            (<[voteKey pid u := mkVote pid u vt (default "" why) (now e)]>
               (ballots s))
            (communityGoals s)).
Proof.
  unfold POST. destruct (proposals s !! pid) as [p|]; [|discriminate].
  destruct (ballots s !! voteKey pid u); [discriminate|].
  destruct (votingDeadline p <? now e)%Z eqn:Hd; [discriminate|].
  intros _. exists p. apply Z.ltb_ge in Hd. repeat split; assumption.
Qed.


End GovernanceFacts.

(** ** Goals and rounding *)

Module GoalFacts.
Import Governance.

Lemma this_ofZ (n : Z) : (this (Num.ofZ n) == inject_Z n)%Q.
Proof. unfold Num.ofZ. simpl. apply Qred_correct. Qed.







End GoalFacts.

(** ** Governance: the statements of the specification *)

Module GovernanceClaims.
Import Governance Scenario.


(** C4, as the specification states it, fails: carol's proposal is
    executed one day after its creation; one day later, five days before
    its deadline, dave's vote on it is accepted, not refused with
    VotingClosed, and the tally of the executed proposal goes from 8 to 9
    votes for. *)
Lemma vote_after_execution_is_counted :
  statusOf after_execution garden = Some executed
  /\ votes_for <$> tallyOf after_execution garden = Some 8%Z
  /\ fst (POST (reqEnv dave_votes) (reqUser dave_votes)
            (reqAction dave_votes) after_execution) <> VotingClosed
  /\ succeeded
       (fst (POST (reqEnv dave_votes) (reqUser dave_votes)
               (reqAction dave_votes) after_execution)) = true
  /\ votes_for <$> tallyOf (step after_execution dave_votes) garden
     = Some 9%Z.
Proof.
  split; [vm_compute; reflexivity|]. split; [vm_compute; reflexivity|].
  split; [|split; vm_compute; reflexivity].
  intros H.
  assert (Hs : succeeded
                 (fst (POST (reqEnv dave_votes) (reqUser dave_votes)
                         (reqAction dave_votes) after_execution)) = true)
    by (vm_compute; reflexivity).
  rewrite H in Hs. discriminate Hs.
Qed.

(** C4 (amended): execution does not close the vote.  On an executed
    proposal a vote by a user who has not voted on it fails with
    VotingClosed only when the voting deadline has passed, and then
    changes nothing; up to the deadline it is accepted and counted in the
    tally, and the proposal stays executed.  Executing a proposal leaves
    its tally as it was. *)
Theorem vote_on_executed_proposal (e : Env) (u pid vt : string)
    (why : option string) (s : Store) (p : Proposal) :
  proposals s !! pid = Some p ->
  status p = executed ->
  ballots s !! voteKey pid u = None ->
  ((votingDeadline p < now e)%Z ->
     POST e u (vote pid vt why) s = (VotingClosed, s))
  /\ ((now e <= votingDeadline p)%Z ->
      succeeded (fst (POST e u (vote pid vt why) s)) = true
      /\ tallyOf (snd (POST e u (vote pid vt why) s)) pid
         = Some (increment vt (votes p))
      /\ statusOf (snd (POST e u (vote pid vt why) s)) pid = Some executed)
  /\ (forall e' u' q,
        proposals s !! pid = Some q ->
        tallyOf (snd (POST e' u' (execute_proposal pid) s)) pid
        = Some (votes q)).
Proof.
  intros Hp Hst Hb. unfold POST. rewrite Hp, Hb. split; [|split].
  - intros Hd. apply Z.ltb_lt in Hd. now rewrite Hd.
  - intros Hd. apply Z.ltb_ge in Hd. rewrite Hd. simpl.
    unfold tallyOf, statusOf; simpl. rewrite lookup_insert_eq; simpl.
    now rewrite Hst.
  - intros e' u' q Hq. injection Hq as <-.
    unfold tallyOf. destruct (passed p); simpl.
    + now rewrite lookup_insert_eq.
    + now rewrite Hp.
Qed.

Lemma vote_on_executed_proposal_witness :
  votes_for
    <$> tallyOf
          (snd (POST (at_ (t0 + 2 * day)) "dave" (vote garden "for" None)
                  after_execution)) garden = Some 9%Z
  /\ statusOf
       (snd (POST (at_ (t0 + 2 * day)) "dave" (vote garden "for" None)
               after_execution)) garden = Some executed.
Proof.
  assert (Hex : status <$> proposals after_execution !! garden
                = Some executed) by (vm_compute; reflexivity).
  assert (Hdl : votingDeadline <$> proposals after_execution !! garden
                = Some (t0 + week)%Z) by (vm_compute; reflexivity).
  assert (Hv : votes_for <$> (votes <$> proposals after_execution !! garden)
               = Some 8%Z) by (vm_compute; reflexivity).
  assert (Hb : ballots after_execution !! voteKey garden "dave" = None)
    by (vm_compute; reflexivity).
  destruct (proposals after_execution !! garden) as [p|] eqn:Hp;
    [|discriminate Hex].
  injection Hex as Hst. injection Hdl as Hdl. injection Hv as Hv.
  assert (Hd : (now (at_ (t0 + 2 * day)) <= votingDeadline p)%Z).
  { rewrite Hdl. vm_compute. discriminate. }
  destruct (vote_on_executed_proposal (at_ (t0 + 2 * day)) "dave" garden
              "for" None after_execution p Hp Hst Hb) as (_ & Hok & _).
  destruct (Hok Hd) as (_ & Ht & Hs).
  split; [|exact Hs].
  rewrite Ht. simpl. rewrite Hv. reflexivity.
Defined.




(** C6: executing fails with ProposalNotFound when there is no such
    proposal, and with QuorumNotMet unless for + against + abstain reaches
    the quorum and for exceeds against; both failures change nothing.
    When the condition holds the execution succeeds, the proposal becomes
    executed and executedAt is the time of the request. *)
Theorem execute_needs_quorum_and_majority (e : Env) (u pid : string)
    (s : Store) :
  (proposals s !! pid = None ->
     POST e u (execute_proposal pid) s = (ProposalNotFound, s))
  /\ forall p,
       proposals s !! pid = Some p ->
       ((quorum p
           <= votes_for (votes p) + votes_against (votes p)
              + votes_abstain (votes p)
         /\ votes_for (votes p) > votes_against (votes p))%Z ->
          succeeded (fst (POST e u (execute_proposal pid) s)) = true
          /\ fst (POST e u (execute_proposal pid) s)
             = Executed (markExecuted p (now e)) ("exec_" +:+ pretty (now e))
          /\ statusOf (snd (POST e u (execute_proposal pid) s)) pid
             = Some executed
          /\ executedAt
               <$> proposals (snd (POST e u (execute_proposal pid) s)) !! pid
             = Some (Some (now e))
          /\ tallyOf (snd (POST e u (execute_proposal pid) s)) pid
             = Some (votes p))
       /\ (~ (quorum p
                <= votes_for (votes p) + votes_against (votes p)
                   + votes_abstain (votes p)
              /\ votes_for (votes p) > votes_against (votes p))%Z ->
           POST e u (execute_proposal pid) s = (QuorumNotMet, s)).
Proof.
  split.
  - intros Hn. unfold POST. now rewrite Hn.
  - intros p Hp. unfold POST. rewrite Hp.
    unfold passed, totalVotes.
    destruct (quorum p <=? votes_for (votes p) + votes_against (votes p)
                           + votes_abstain (votes p))%Z eqn:Hq;
      destruct (votes_against (votes p) <? votes_for (votes p))%Z eqn:Hm;
      simpl.
    + split; [|intros Hno; exfalso; apply Hno; split;
                [now apply Z.leb_le|apply Z.ltb_lt in Hm; lia]].
      intros _. unfold statusOf, tallyOf. simpl.
      rewrite lookup_insert_eq. repeat split.
    + split; [|reflexivity]. intros [_ H]. apply Z.ltb_ge in Hm. lia.
    + split; [|reflexivity]. intros [H _]. apply Z.leb_gt in Hq. lia.
    + split; [|reflexivity]. intros [H _]. apply Z.leb_gt in Hq. lia.
Qed.

(** Carol's proposal has quorum 15.  With 14 votes (7 for, 7 against)
    executing fails with QuorumNotMet; after a 15th vote, for, it
    succeeds and the proposal is executed. *)
Lemma execute_needs_quorum_and_majority_witness :
  (quorum <$> proposals after_14_votes !! garden = Some 15%Z
   /\ totalVotes <$> tallyOf after_14_votes garden = Some 14%Z
   /\ POST (at_ (t0 + day)) "carol" (execute_proposal garden) after_14_votes
      = (QuorumNotMet, after_14_votes))
  /\
  (totalVotes <$> tallyOf after_15_votes garden = Some 15%Z
   /\ succeeded
        (fst (POST (at_ (t0 + day)) "carol" (execute_proposal garden)
                after_15_votes)) = true
   /\ statusOf
        (snd (POST (at_ (t0 + day)) "carol" (execute_proposal garden)
                after_15_votes)) garden = Some executed).
Proof.
  split.
  - assert (Hq : quorum <$> proposals after_14_votes !! garden = Some 15%Z)
      by (vm_compute; reflexivity).
    assert (Ht : totalVotes <$> tallyOf after_14_votes garden = Some 14%Z)
      by (vm_compute; reflexivity).
    split; [exact Hq|]. split; [exact Ht|].
    assert (Ht' : totalVotes <$> (votes <$> proposals after_14_votes !! garden)
                  = Some 14%Z) by (vm_compute; reflexivity).
    destruct (proposals after_14_votes !! garden) as [p|] eqn:Hp;
      [|discriminate Hq].
    injection Hq as Hq. injection Ht' as Ht'. unfold totalVotes in Ht'.
    destruct (execute_needs_quorum_and_majority (at_ (t0 + day)) "carol"
                garden after_14_votes) as (_ & Hsome).
    destruct (Hsome p Hp) as (_ & Hfail). apply Hfail. lia.
  - assert (Hq : quorum <$> proposals after_15_votes !! garden = Some 15%Z)
      by (vm_compute; reflexivity).
    assert (Ht : totalVotes <$> tallyOf after_15_votes garden = Some 15%Z)
      by (vm_compute; reflexivity).
    assert (Hf : votes_for <$> (votes <$> proposals after_15_votes !! garden)
                 = Some 8%Z) by (vm_compute; reflexivity).
    assert (Ha : votes_against
                   <$> (votes <$> proposals after_15_votes !! garden)
                 = Some 7%Z) by (vm_compute; reflexivity).
    split; [exact Ht|].
    assert (Ht' : totalVotes <$> (votes <$> proposals after_15_votes !! garden)
                  = Some 15%Z) by (vm_compute; reflexivity).
    destruct (proposals after_15_votes !! garden) as [p|] eqn:Hp;
      [|discriminate Hq].
    injection Hq as Hq. injection Ht' as Ht'. injection Hf as Hf.
    injection Ha as Ha. unfold totalVotes in Ht'.
    destruct (execute_needs_quorum_and_majority (at_ (t0 + day)) "carol"
                garden after_15_votes) as (_ & Hsome).
    destruct (Hsome p Hp) as (Hpass & _).
    destruct Hpass as (Hs & _ & Hst & _); [lia|]. split; assumption.
Defined.





(** C10: whatever the store holds, get-governance-stats answers 500
    "Internal server error": the clause reads [userVotes], which only the
    get-user-votes clause initialises, and the handler catches the
    exception. *)
Theorem governance_stats_always_fails (e : Env) (userId : option string)
    (s : Store) :
  GET_try e get_governance_stats userId s
  = inl (ReferenceError "Cannot access 'userVotes' before initialization")
  /\ GET e get_governance_stats userId s
     = GetFailure 500 "Internal server error"
  /\ forall stats, GET e get_governance_stats userId s <> Stats stats.
Proof.
  split; [reflexivity|]. split; [reflexivity|]. discriminate.
Qed.

End GovernanceClaims.

(** ** The dashboard *)

Module IntegrationFacts.
Import Integrations.

(** A statistics method settles as resolved whatever its request does:
    a rejection, and an exception while the answer is read, both end in
    the [catch] block. *)
Lemma stats_method_resolves (backend : Promise Value)
    (defaults fallback : list (string * Value)) :
  exists v, stats_method backend defaults fallback = resolve v.
Proof.
  unfold stats_method, try_catch, await.
  destruct backend as [error|response]; [eauto|].
  destruct (with_defaults response defaults); eauto.
Qed.

Lemma stats_method_rejected (error : Value)
    (defaults fallback : list (string * Value)) :
  stats_method (reject error) defaults fallback = resolve (Object fallback).
Proof. reflexivity. Qed.

Lemma stats_resolves (c : Collaborator) (backend : Promise Value) :
  exists v, stats c backend = resolve v.
Proof. destruct c; apply stats_method_resolves. Qed.

Lemma stats_rejected (c : Collaborator) (error : Value) :
  stats c (reject error) = resolve (placeholder c).
Proof. destruct c; reflexivity. Qed.

(** The aggregator itself has no [catch]: [Promise.all] and its two
    later [await]s pass a rejection on. *)
Lemma Promise_all_rejects {A} (ps : list (Promise A)) (error : Value) :
  In (reject error) ps -> exists error', Promise_all ps = reject error'.
Proof.
  induction ps as [|p ps IH]; intros Hin; [destruct Hin|].
  simpl. destruct p as [e|a]; [eexists; reflexivity|].
  destruct Hin as [Heq|Hin]; [discriminate Heq|].
  destruct (IH Hin) as [e' ->]. eexists; reflexivity.
Qed.

Lemma section_of_snapshot (human good nil tor edge log ben arch numb : Value)
    (c : Collaborator) :
  section_of (snapshot human good nil tor edge log ben arch numb) c
  = match c with
    | humanProtocol => human
    | goodDollar => good
    | nillion => nil
    | torProject => tor
    | edgeCity => edge
    | logos => log
    | bento => ben
    | internetArchive => arch
    | numbersProtocol => numb
    end.
Proof. destruct c; reflexivity. Qed.

End IntegrationFacts.

Module IntegrationClaims.
Import Integrations Scenario.

(** C9: the snapshot tolerates the failure of any collaborator.  However
    the nine services answer -- any of them may reject its request --
    getDashboardData resolves with a snapshot; the section of each
    collaborator is what its own statistics call returns, so it does not
    depend on the other collaborators, and the section of a collaborator
    whose request was rejected holds that collaborator's placeholder
    values. *)
Theorem dashboard_survives_failing_collaborators (b : Backends) :
  exists snapshot,
    getDashboardData b = resolve snapshot
    /\ forall c,
         stats c (b c) = resolve (section_of snapshot c)
         /\ forall error,
              b c = reject error -> section_of snapshot c = placeholder c.
Proof.
  destruct (IntegrationFacts.stats_resolves humanProtocol (b humanProtocol))
    as [v1 H1].
  destruct (IntegrationFacts.stats_resolves goodDollar (b goodDollar))
    as [v2 H2].
  destruct (IntegrationFacts.stats_resolves nillion (b nillion)) as [v3 H3].
  destruct (IntegrationFacts.stats_resolves torProject (b torProject))
    as [v4 H4].
  destruct (IntegrationFacts.stats_resolves edgeCity (b edgeCity))
    as [v5 H5].
  destruct (IntegrationFacts.stats_resolves logos (b logos)) as [v6 H6].
  destruct (IntegrationFacts.stats_resolves bento (b bento)) as [v7 H7].
  destruct (IntegrationFacts.stats_resolves internetArchive
              (b internetArchive)) as [v8 H8].
  destruct (IntegrationFacts.stats_resolves numbersProtocol
              (b numbersProtocol)) as [v9 H9].
  exists (Integrations.snapshot v1 v2 v3 v4 v5 v6 v7 v8 v9). split.
  - unfold getDashboardData. rewrite H1, H2, H3, H4, H5, H6, H7, H8, H9.
    reflexivity.
  - intros c. rewrite IntegrationFacts.section_of_snapshot.
    assert (Hc : stats c (b c)
                 = resolve
                     match c with
                     | humanProtocol => v1
                     | goodDollar => v2
                     | nillion => v3
                     | torProject => v4
                     | edgeCity => v5
                     | logos => v6
                     | bento => v7
                     | internetArchive => v8
                     | numbersProtocol => v9
                     end) by (destruct c; assumption).
    split; [exact Hc|].
    intros error Hb. rewrite Hb, IntegrationFacts.stats_rejected in Hc.
    injection Hc as Hc. symmetry. exact Hc.
Qed.

(** With the service behind Nillion down the snapshot is still returned:
    its nillion section holds the placeholder, and the humanProtocol
    section holds the count its own service reported. *)
Lemma dashboard_survives_failing_collaborators_witness :
  exists snapshot,
    getDashboardData nillion_down = resolve snapshot
    /\ section_of snapshot nillion = placeholder nillion
    /\ field_of (section_of snapshot humanProtocol) "totalVerified"
       = num 130000.
Proof.
  destruct (dashboard_survives_failing_collaborators nillion_down)
    as (snapshot & Hd & Hs).
  exists snapshot. split; [exact Hd|]. split.
  - destruct (Hs nillion) as (_ & Hp).
    exact (Hp (Text "connect ECONNREFUSED") eq_refl).
  - destruct (Hs humanProtocol) as (Hh & _).
    assert (Hv : stats humanProtocol (nillion_down humanProtocol)
                 = resolve
                     (Object
                        [("totalVerified", num 130000);
                         ("avgUniquenessScore", Number (Num.dec 85 100));
                         ("sybilResistanceRate", Number (Num.dec 97 100))]))
      by reflexivity.
    rewrite Hv in Hh. injection Hh as <-. reflexivity.
Defined.

End IntegrationClaims.

(** ** More on the ledger *)

Module FinanceMore.
Import Finance FinanceQueries.

Lemma ledger_run_cons (r : Request) (rs : list Request) (s : Store) :
  run (r :: rs) s = run rs (step s r).
Proof. reflexivity. Qed.

Lemma other_user_untouched (e : Env) (u v : string) (a : Action)
    (s : Store) :
  v <> u ->
  userBalances (snd (POST e u a s)) !! v = userBalances s !! v
  /\ transactions (snd (POST e u a s)) !! v = transactions s !! v.
Proof.
  intros Hv.
  destruct a as [| |to amt cur|amt|name]; unfold POST.
  - destruct (userBalances s !! u); simpl; [easy|].
    now rewrite lookup_insert_ne by congruence.
  - simpl. unfold record. now rewrite !lookup_insert_ne by congruence.
  - destruct (userBalances s !! u) as [b|]; [|easy].
    destruct (Num.ltb (gBalance b) amt); [easy|]. simpl. unfold record.
    now rewrite !lookup_insert_ne by congruence.
  - destruct (userBalances s !! u) as [b|]; [|easy].
    destruct (Num.ltb (gBalance b) amt); [easy|]. simpl. unfold record.
    now rewrite !lookup_insert_ne by congruence.
  - easy.
Qed.

(** X1: a request changes the balance record and the log of the user who
    sends it and of nobody else; a payment in particular credits nothing
    to its recipient, whose record and log stay as they were. *)
Theorem post_touches_the_requester_only (e : Env) (u v : string) (a : Action)
    (s : Store) :
  v <> u ->
  userBalances (snd (POST e u a s)) !! v = userBalances s !! v
  /\ transactions (snd (POST e u a s)) !! v = transactions s !! v
  /\ forall amt cur,
       spendable (snd (POST e u (send_payment v amt cur) s)) v
       = spendable s v.
Proof.
  intros Hv. destruct (other_user_untouched e u v a s Hv) as [Hb Hl].
  split; [exact Hb|]. split; [exact Hl|]. intros amt cur. unfold spendable.
  now destruct (other_user_untouched e u v (send_payment v amt cur) s Hv)
    as [-> _].
Qed.


End FinanceMore.

Module LedgerLog.
Import Finance FinanceQueries.

Lemma step_log (e : Env) (u : string) (a : Action) (s : Store) :
  match fst (POST e u a s) with
  | Claimed tx _ | PaymentSent tx _ | Deposited tx _ =>
      logOf (snd (POST e u a s)) u = (logOf s u ++ [tx])%list
  | _ => logOf (snd (POST e u a s)) u = logOf s u
  end.
Proof.
  unfold logOf, POST.
  destruct a as [| |to amt cur|amt|name]; simpl.
  - destruct (userBalances s !! u); reflexivity.
  - unfold record. now rewrite lookup_insert_eq.
  - destruct (userBalances s !! u) as [b|]; [|reflexivity].
    destruct (Num.ltb (gBalance b) amt); [reflexivity|]. simpl.
    unfold record. now rewrite lookup_insert_eq.
  - destruct (userBalances s !! u) as [b|]; [|reflexivity].
    destruct (Num.ltb (gBalance b) amt); [reflexivity|]. simpl.
    unfold record. now rewrite lookup_insert_eq.
  - reflexivity.
Qed.

Lemma step_log_prefix (r : Request) (s : Store) (u : string) :
  logOf s u `prefix_of` logOf (step s r) u.
Proof.
  destruct r as [e v a]. unfold step. simpl.
  destruct (decide (u = v)) as [->|Hne].
  - pose proof (step_log e v a s) as H.
    destruct (fst (POST e v a s)); rewrite H;
      first [reflexivity | now apply prefix_app_r].
  - unfold logOf.
    destruct (FinanceMore.other_user_untouched e v u a s Hne)
      as [_ ->]. reflexivity.
Qed.

(** X3: the requests of the route only append to a log.  Whatever
    requests are served, the log a user had is a prefix of the log the
    user has afterwards; an accepted claim, payment or deposit appends the
    one transaction its response shows, and every other request leaves the
    log of its sender as it was. *)
Theorem log_is_append_only (rs : list Request) (s : Store) (u : string) :
  logOf s u `prefix_of` logOf (run rs s) u
  /\ forall e a,
       match fst (POST e u a (run rs s)) with
       | Claimed tx _ | PaymentSent tx _ | Deposited tx _ =>
           logOf (snd (POST e u a (run rs s))) u
           = (logOf (run rs s) u ++ [tx])%list
       | _ => logOf (snd (POST e u a (run rs s))) u = logOf (run rs s) u
       end.
Proof.
  split; [|intros e a; apply step_log].
  revert s. induction rs as [|r rs IH]; intros s; [reflexivity|].
  rewrite FinanceMore.ledger_run_cons.
  transitivity (logOf (step s r) u); [apply step_log_prefix|apply IH].
Qed.

Lemma insert_by_time_perm (x : Transaction) (l : list Transaction) :
  Permutation (insert_by_time x l) (x :: l).
Proof.
  induction l as [|y l IH]; simpl; [reflexivity|].
  destruct (timestamp y <=? timestamp x)%Z; [reflexivity|].
  rewrite IH. apply perm_swap.
Qed.

Lemma sort_perm (l : list Transaction) :
  Permutation (sort_newest_first l) l.
Proof.
  induction l as [|x l IH]; simpl; [reflexivity|].
  rewrite insert_by_time_perm. now constructor.
Qed.

Lemma insert_by_time_sorted (x : Transaction) (l : list Transaction) :
  StronglySorted not_older l -> StronglySorted not_older (insert_by_time x l).
Proof.
  induction l as [|y l IH]; intros Hl; simpl.
  - repeat constructor.
  - apply StronglySorted_inv in Hl. destruct Hl as [Hl Hy].
    destruct (timestamp y <=? timestamp x)%Z eqn:Hc.
    + apply Z.leb_le in Hc. constructor.
      * now constructor.
      * constructor; [exact Hc|].
        eapply Forall_impl; [exact Hy|]. unfold not_older. intros z Hz. lia.
    + apply Z.leb_gt in Hc. constructor; [now apply IH|].
      eapply Permutation_Forall.
      * symmetry. apply insert_by_time_perm.
      * constructor; [unfold not_older; lia|exact Hy].
Qed.

Lemma sort_sorted (l : list Transaction) :
  StronglySorted not_older (sort_newest_first l).
Proof.
  induction l as [|x l IH]; simpl; [constructor|].
  now apply insert_by_time_sorted.
Qed.

Lemma sort_of_sorted (l : list Transaction) :
  StronglySorted not_older l -> sort_newest_first l = l.
Proof.
  induction l as [|x l IH]; intros Hl; [reflexivity|].
  apply StronglySorted_inv in Hl. destruct Hl as [Hl Hx].
  simpl. rewrite (IH Hl). destruct l as [|y l]; [reflexivity|]. simpl.
  apply Forall_inv in Hx. unfold not_older in Hx.
  apply Z.leb_le in Hx. now rewrite Hx.
Qed.

Lemma insert_oldest (x : Transaction) (l : list Transaction) :
  Forall (fun y => (timestamp x < timestamp y)%Z) l ->
  insert_by_time x l = (l ++ [x])%list.
Proof.
  induction 1 as [|y l Hy _ IH]; simpl; [reflexivity|].
  apply Z.leb_gt in Hy. now rewrite Hy, IH.
Qed.

Lemma sort_of_chronological (l : list Transaction) :
  StronglySorted (fun a b => (timestamp a < timestamp b)%Z) l ->
  sort_newest_first l = rev l.
Proof.
  induction l as [|x l IH]; intros Hl; [reflexivity|].
  apply StronglySorted_inv in Hl. destruct Hl as [Hl Hx].
  simpl. rewrite (IH Hl). apply insert_oldest.
  now apply Forall_rev.
Qed.

Lemma chronological_sorted (l : list Transaction) :
  chronological l = true ->
  StronglySorted (fun a b => (timestamp a < timestamp b)%Z) l.
Proof.
  induction l as [|x l IH]; simpl; [constructor|].
  intros H. apply andb_true_iff in H. destruct H as [Hx Hl].
  constructor; [now apply IH|].
  apply Forall_forall. intros y Hy.
  rewrite forallb_forall in Hx. apply Z.ltb_lt. apply Hx.
  now apply list_elem_of_In.
Qed.

(** X4: for a user id that is not empty, get-transactions returns every
    transaction of the user's log exactly once, the newest first, with
    totalCount the length of the log; a log in chronological order comes
    back reversed and a log already newest-first comes back as it is.  The
    read sorts the stored array itself: afterwards the store holds the
    returned order (balances untouched), and asking again returns the same
    list and changes nothing. *)
Theorem get_transactions_newest_first (u : string) (s : Store) :
  u <> "" ->
  exists l,
    fst (get_transactions (Some u) s)
    = Transactions l (Z.of_nat (length (logOf s u)))
    /\ Permutation l (logOf s u)
    /\ StronglySorted not_older l
    /\ (StronglySorted (fun a b => (timestamp a < timestamp b)%Z) (logOf s u)
        -> l = rev (logOf s u))
    /\ (StronglySorted not_older (logOf s u) -> l = logOf s u)
    /\ logOf (snd (get_transactions (Some u) s)) u = l
    /\ userBalances (snd (get_transactions (Some u) s)) = userBalances s
    /\ get_transactions (Some u) (snd (get_transactions (Some u) s))
       = (Transactions l (Z.of_nat (length l)),
          snd (get_transactions (Some u) s)).
Proof.
  intros Hu. destruct u as [|c u']; [congruence|]. clear Hu.
  set (u := String c u'). unfold logOf, get_transactions. fold u.
  destruct (transactions s !! u) as [log|] eqn:Hlog; simpl.
  - exists (sort_newest_first log). rewrite lookup_insert_eq. simpl.
    split; [now rewrite (Permutation_length (sort_perm log))|].
    split; [apply sort_perm|]. split; [apply sort_sorted|].
    split; [apply sort_of_chronological|].
    split; [apply sort_of_sorted|]. split; [reflexivity|].
    split; [reflexivity|].
    rewrite (sort_of_sorted _ (sort_sorted log)).
    now rewrite insert_insert_eq.
  - exists []. rewrite Hlog. simpl. repeat split; constructor.
Qed.

(** X5: the wallet address of a balance record is fixed when the record is
    made.  Once a user has a record, after any requests the user still has
    one and it holds the same walletAddress: a later connect-human-wallet
    answers with a new address and stores nothing, and a record that
    claim-ubi made keeps its walletAddress undefined. *)
Theorem wallet_address_is_never_replaced (rs : list Request) (s : Store)
    (u : string) (b : Balance) :
  userBalances s !! u = Some b ->
  (exists b',
     userBalances (run rs s) !! u = Some b'
     /\ walletAddress b' = walletAddress b)
  /\ forall e,
       POST e u connect_human_wallet (run rs s)
       = (WalletConnected ("0x" +:+ randomLink e), run rs s).
Proof.
  intros Hb.
  assert (Hrun : exists b',
             userBalances (run rs s) !! u = Some b'
             /\ walletAddress b' = walletAddress b).
  { revert s b Hb. induction rs as [|r rs IH]; intros s b Hb; [eauto|].
    rewrite FinanceMore.ledger_run_cons.
    assert (Hstep : exists b1,
               userBalances (step s r) !! u = Some b1
               /\ walletAddress b1 = walletAddress b).
    { destruct r as [e v a]. unfold step. simpl.
      destruct (decide (u = v)) as [<-|Hne].
      - unfold POST. destruct a as [| |to amt cur|amt|name]; simpl.
        + rewrite Hb. eauto.
        + rewrite lookup_insert_eq, Hb. eauto.
        + rewrite Hb. destruct (Num.ltb (gBalance b) amt); simpl;
            [eauto|]. rewrite lookup_insert_eq. eauto.
        + rewrite Hb. destruct (Num.ltb (gBalance b) amt); simpl;
            [eauto|]. rewrite lookup_insert_eq. eauto.
        + eauto.
      - destruct (FinanceMore.other_user_untouched e v u a s Hne)
          as [-> _]. eauto. }
    destruct Hstep as (b1 & Hb1 & <-). apply (IH _ _ Hb1). }
  split; [exact Hrun|].
  destruct Hrun as (b' & Hb' & _). intros e. unfold POST. rewrite Hb'.
  destruct (run rs s); reflexivity.
Qed.

End LedgerLog.

Module LedgerAudit.
Import Finance FinanceQueries.





End LedgerAudit.

Module LedgerCases.
Import Finance FinanceQueries Scenario Cases.

(** Alice pays bob 100: bob's record still shows the 10 of his claim. *)
Lemma post_touches_the_requester_only_witness :
  exists b,
    userBalances
      (snd (POST (at_ (t0 + 11 * day)) "alice" (alice_pays_bob (Num.ofZ 100))
              alice_and_bob)) !! "bob" = Some b
    /\ gBalance b = Num.ofZ 10.
Proof.
  assert (Hne : "bob" <> "alice") by discriminate.
  destruct (FinanceMore.post_touches_the_requester_only
              (at_ (t0 + 11 * day)) "alice" "bob"
              (alice_pays_bob (Num.ofZ 100)) alice_and_bob Hne)
    as (Hb & _ & _).
  eexists. split.
  - rewrite Hb. vm_compute. reflexivity.
  - apply Qc_is_canon. vm_compute. reflexivity.
Defined.


(** Ten claims on ten days: the listing is the log in reverse. *)
Lemma get_transactions_newest_first_witness :
  fst (get_transactions (Some "alice") ledger_100)
  = Transactions (rev (logOf ledger_100 "alice")) 10.
Proof.
  assert (Hu : "alice" <> "") by discriminate.
  assert (Hc : chronological (logOf ledger_100 "alice") = true)
    by (vm_compute; reflexivity).
  apply LedgerLog.chronological_sorted in Hc.
  assert (Hn : Z.of_nat (length (logOf ledger_100 "alice")) = 10%Z)
    by (vm_compute; reflexivity).
  destruct (LedgerLog.get_transactions_newest_first "alice" ledger_100 Hu)
    as (l & Hr & _ & _ & Hrev & _).
  rewrite Hr, (Hrev Hc), Hn. reflexivity.
Defined.

(** Alice's record was made by her first claim, without a wallet address;
    she connects a wallet and claims again: still no address stored. *)
Lemma wallet_address_is_never_replaced_witness :
  walletAddress
    <$> userBalances (run [alice_connects; claim_on_day 3] ledger_10) !! "alice"
  = Some None.
Proof.
  assert (Hw : walletAddress <$> userBalances ledger_10 !! "alice" = Some None)
    by (vm_compute; reflexivity).
  destruct (userBalances ledger_10 !! "alice") as [b|] eqn:Hb;
    [|discriminate Hw].
  injection Hw as Hw.
  destruct (LedgerLog.wallet_address_is_never_replaced
              [alice_connects; claim_on_day 3] ledger_10 "alice" b Hb)
    as ((b' & Hb' & Hsame) & _).
  rewrite Hb'. simpl. now rewrite Hsame, Hw.
Defined.


End LedgerCases.

(** ** More on the governance store *)

Module GovernanceMore.
Import Governance GovernanceQueries.

Lemma this_mul_ofZ (x : Qc) (n : Z) :
  (this (x * Num.ofZ n) == this x * inject_Z n)%Q.
Proof.
  change (this (x * Num.ofZ n)) with (Qred (this x * this (Num.ofZ n))).
  rewrite Qred_correct. now rewrite GoalFacts.this_ofZ.
Qed.

Lemma quorum_draw (x : Qc) :
  0 <= x -> x < 1 -> (0 <= Num.floor (x * Num.ofZ 20) <= 19)%Z.
Proof.
  intros H0 H1. unfold Num.floor. unfold Qcle in H0. unfold Qclt in H1.
  simpl in H0, H1.
  assert (Hlo : (0 <= this x * inject_Z 20)%Q).
  { apply Qmult_le_0_compat; [exact H0|]. discriminate. }
  assert (Hhi : (this x * inject_Z 20 < inject_Z 20)%Q).
  { rewrite <- (Qmult_1_l (inject_Z 20)) at 2.
    apply Qmult_lt_compat_r; [reflexivity|exact H1]. }
  rewrite (Qfloor_comp _ _ (this_mul_ofZ x 20)). split.
  - rewrite <- (Qfloor_Z 0). now apply Qfloor_resp_le.
  - assert (Hf : (inject_Z (Qfloor (this x * inject_Z 20)) < inject_Z 20)%Q).
    { eapply Qle_lt_trans; [apply Qfloor_le|exact Hhi]. }
    rewrite <- Zlt_Qlt in Hf. lia.
Qed.

(** X6: a proposal is created active, with an empty tally, a deadline
    seven days after its creation and, Math.random() being in [0, 1), a
    quorum between 10 and 29; it is stored under its id, and executing it
    before anyone has voted fails with QuorumNotMet. *)
Theorem created_proposal_needs_votes (e : Env) (u title descr cat : string)
    (budget : Qc) (s : Store) :
  0 <= random e -> random e < 1 ->
  exists p,
    fst (POST e u (create_proposal title descr cat budget) s)
    = ProposalCreated p
    /\ proposals (snd (POST e u (create_proposal title descr cat budget) s))
       !! id p = Some p
    /\ author p = u
    /\ status p = active
    /\ votes p = mkTally 0 0 0 ∅
    /\ createdAt p = now e
    /\ votingDeadline p = (now e + 604800000)%Z
    /\ (10 <= quorum p <= 29)%Z
    /\ forall e' u',
         POST e' u' (execute_proposal (id p))
           (snd (POST e u (create_proposal title descr cat budget) s))
         = (QuorumNotMet,
            snd (POST e u (create_proposal title descr cat budget) s)).
Proof.
  intros H0 H1. pose proof (quorum_draw (random e) H0 H1) as Hq.
  eexists. split; [reflexivity|]. simpl.
  split; [now rewrite lookup_insert_eq|].
  split; [reflexivity|]. split; [reflexivity|]. split; [reflexivity|].
  split; [reflexivity|]. split; [reflexivity|]. split; [lia|].
  intros e' u'. rewrite lookup_insert_eq.
  unfold passed. simpl. now rewrite andb_false_r.
Qed.

(** The ballots are written once. *)
Lemma POST_keeps_ballot (e : Env) (u : string) (a : Action) (s : Store)
    (k : string) (v : Vote) :
  ballots s !! k = Some v -> ballots (snd (POST e u a s)) !! k = Some v.
Proof.
  intros Hk. unfold POST.
  destruct a as [t d c b|pid vt why|g amt anon|pid|name]; simpl;
    try assumption.
  - destruct (proposals s !! pid) as [p|]; [|assumption].
    destruct (ballots s !! voteKey pid u) eqn:Hv; [assumption|].
    destruct (votingDeadline p <? now e)%Z; [assumption|]. simpl.
    rewrite lookup_insert_ne; [assumption|]. intros <-. congruence.
  - destruct (communityGoals s !! g); assumption.
  - destruct (proposals s !! pid) as [p|]; [|assumption].
    destruct (passed p); assumption.
Qed.

Lemma run_keeps_ballot (rs : list Request) (s : Store) (k : string)
    (v : Vote) :
  ballots s !! k = Some v -> ballots (run rs s) !! k = Some v.
Proof.
  revert s. induction rs as [|r rs IH]; intros s Hk; [assumption|].
  rewrite GovernanceFacts.run_cons. apply IH. now apply POST_keeps_ballot.
Qed.

(** X7: a vote is immutable once cast.  After an accepted vote, whatever
    requests follow, the votes map holds that vote unchanged under its key,
    and get-user-votes for that user (a non-empty id) lists it. *)
Theorem accepted_vote_is_kept (e : Env) (u pid vt : string)
    (why : option string) (s : Store) :
  u <> "" ->
  succeeded (fst (POST e u (vote pid vt why) s)) = true ->
  forall (rs : list Request) e',
    ballots (run rs (snd (POST e u (vote pid vt why) s))) !! voteKey pid u
    = Some (mkVote pid u vt (default "" why) (now e))
    /\ exists l,
         GET e' get_user_votes (Some u)
           (run rs (snd (POST e u (vote pid vt why) s)))
         = UserVotes l (Z.of_nat (length l))
         /\ In (mkVote pid u vt (default "" why) (now e)) l
         /\ Forall (fun v => userId v = u) l.
Proof.
  intros Hu Hok rs e'.
  destruct (GovernanceFacts.vote_success_inv _ _ _ _ _ _ Hok)
    as (p & Hp & Hb & Hd & ->). simpl.
  assert (Hk : ballots
                 (run rs
                    (mkStore
                       (<[pid := setVotes p (increment vt (votes p))]>
                          (proposals s))
                       (<[voteKey pid u
                          := mkVote pid u vt (default "" why) (now e)]>
                          (ballots s))
                       (communityGoals s))) !! voteKey pid u
               = Some (mkVote pid u vt (default "" why) (now e))).
  { apply run_keeps_ballot. simpl. now rewrite lookup_insert_eq. }
  split; [exact Hk|].
  destruct u as [|c u']; [congruence|].
  eexists. split; [reflexivity|]. split.
  - apply filter_In. split.
    + apply list_elem_of_In, list_elem_of_fmap.
      exists (voteKey pid (String c u'),
              mkVote pid (String c u') vt (default "" why) (now e)).
      split; [reflexivity|]. now apply elem_of_map_to_list.
    + simpl. now apply bool_decide_eq_true_2.
  - apply Forall_forall. intros v Hv. apply list_elem_of_In in Hv.
    apply filter_In in Hv. destruct Hv as [_ Hv].
    now apply bool_decide_eq_true_1 in Hv.
Qed.

(** X9: get-proposal and vote agree except at the deadline itself.  For a
    proposal that exists, canVote is true exactly when the user has no
    ballot on it and now < votingDeadline; whenever canVote is true a vote
    sent at that instant is accepted, and a vote is also accepted at
    now = votingDeadline, where canVote is false. *)
Theorem canVote_and_vote (e : Env) (u pid vt : string) (why : option string)
    (s : Store) (p : Proposal) :
  pid <> "" ->
  proposals s !! pid = Some p ->
  exists canVote,
    GET e (get_proposal (Some pid)) (Some u) s
    = ProposalView p (ballots s !! voteKey pid u) canVote (votingDeadline p)
    /\ (canVote = true <->
        ballots s !! voteKey pid u = None /\ (now e < votingDeadline p)%Z)
    /\ (succeeded (fst (POST e u (vote pid vt why) s)) = true <->
        ballots s !! voteKey pid u = None /\ (now e <= votingDeadline p)%Z)
    /\ (canVote = true ->
        succeeded (fst (POST e u (vote pid vt why) s)) = true).
Proof.
  intros Hpid Hp. destruct pid as [|c pid']; [congruence|]. clear Hpid.
  set (pid := String c pid') in *.
  unfold GET, GET_try. fold pid. rewrite Hp. simpl.
  eexists. split; [reflexivity|].
  assert (Hvote : succeeded (fst (POST e u (vote pid vt why) s)) = true <->
                  ballots s !! voteKey pid u = None
                  /\ (now e <= votingDeadline p)%Z).
  { unfold POST. rewrite Hp.
    destruct (ballots s !! voteKey pid u) as [v|]; simpl.
    - split; [discriminate|intros [? _]; discriminate].
    - destruct (votingDeadline p <? now e)%Z eqn:Hd; simpl.
      + apply Z.ltb_lt in Hd. split; [discriminate|]. intros [_ ?]. lia.
      + apply Z.ltb_ge in Hd. split; [now split|reflexivity]. }
  assert (Hcan : negb (bool_decide (is_Some (ballots s !! voteKey pid u)))
                 && (now e <? votingDeadline p)%Z = true <->
                 ballots s !! voteKey pid u = None
                 /\ (now e < votingDeadline p)%Z).
  { rewrite andb_true_iff, negb_true_iff, Z.ltb_lt.
    rewrite bool_decide_eq_false, <- eq_None_not_Some. reflexivity. }
  split; [exact Hcan|]. split; [exact Hvote|].
  intros Hc. apply Hvote. apply Hcan in Hc. destruct Hc. split; [easy|lia].
Qed.

End GovernanceMore.

Module TallyFacts.
Import Governance GovernanceQueries.

Lemma increment_bounds (vt : string) (t : Tally) :
  (votes_for t <= votes_for (increment vt t))%Z
  /\ (votes_against t <= votes_against (increment vt t))%Z
  /\ (votes_abstain t <= votes_abstain (increment vt t))%Z
  /\ (totalVotes (increment vt t) <= totalVotes t + 1)%Z.
Proof.
  unfold increment, totalVotes.
  destruct (decide (vt = "for")); [simpl; lia|].
  destruct (decide (vt = "against")); [simpl; lia|].
  destruct (decide (vt = "abstain")); simpl; lia.
Qed.

Lemma ballotsFor_insert (s : Store) (props : gmap string Proposal)
    (k pid : string) (v : Vote) :
  ballots s !! k = None ->
  ballotsFor (mkStore props (<[k := v]> (ballots s)) (communityGoals s)) pid
  = if decide (proposalId v = pid) then S (ballotsFor s pid)
    else ballotsFor s pid.
Proof.
  intros Hk. unfold ballotsFor. simpl. rewrite map_filter_insert. simpl.
  destruct (decide (proposalId v = pid)) as [Heq|Hne].
  - rewrite map_size_insert_None; [reflexivity|].
    apply map_lookup_filter_None. now left.
  - now rewrite delete_id.
Qed.

Lemma step_tallies_backed (s : Store) (r : Request) :
  tallies_backed s -> tallies_backed (step s r).
Proof.
  intros Hs. destruct r as [e u a]. unfold step. simpl. unfold POST.
  destruct a as [t d c b|pid0 vt why|g amt anon|pid0|name]; try exact Hs.
  - intros pid p. simpl. rewrite lookup_insert.
    destruct (decide (_ = pid)) as [_|_]; [|apply Hs].
    intros [= <-]. simpl. unfold totalVotes. simpl. lia.
  - destruct (proposals s !! pid0) as [p0|] eqn:Hp0; [|exact Hs].
    destruct (ballots s !! voteKey pid0 u) eqn:Hb; [exact Hs|].
    destruct (votingDeadline p0 <? now e)%Z; [exact Hs|].
    intros pid p. simpl snd. unfold proposals at 1.
    rewrite (ballotsFor_insert s _ _ pid _ Hb). simpl proposalId.
    rewrite lookup_insert.
    destruct (decide (pid0 = pid)) as [<-|Hne].
    + intros [= <-]. simpl.
      destruct (Hs pid0 p0 Hp0) as (Hf & Ha & Hab & Ht).
      destruct (increment_bounds vt (votes p0)) as (If & Ia & Iab & It).
      lia.
    + apply Hs.
  - destruct (communityGoals s !! g); exact Hs.
  - destruct (proposals s !! pid0) as [p0|] eqn:Hp0; [|exact Hs].
    destruct (passed p0); [|exact Hs].
    intros pid p. simpl. rewrite lookup_insert.
    destruct (decide (pid0 = pid)) as [<-|Hne]; [|apply Hs].
    intros [= <-]. simpl. exact (Hs pid0 p0 Hp0).
Qed.

(** X8: a tally never counts more votes than there are ballots.  If in a
    store no counter is negative and for every proposal for + against +
    abstain is at most the number of recorded ballots that name it, the
    same holds after any requests; it holds in the store the route starts
    with. *)
Theorem tally_is_backed_by_ballots (rs : list Request) (s : Store) :
  tallies_backed s -> tallies_backed (run rs s).
Proof.
  revert s. induction rs as [|r rs IH]; intros s Hs; [exact Hs|].
  rewrite GovernanceFacts.run_cons. apply IH. now apply step_tallies_backed.
Qed.

Lemma initial_tallies_backed : tallies_backed initial.
Proof.
  intros pid p Hp. simpl in Hp. rewrite lookup_empty in Hp. discriminate.
Qed.

End TallyFacts.

Module GoalListing.
Import Governance GovernanceQueries.











End GoalListing.

(** ** More on the integrations *)

Module StatusFacts.
Import Integrations IntegrationStatus.

Lemma checkStatus_true (c : Collaborator) (backend : Promise Value) :
  checkStatus c backend = resolve true.
Proof.
  unfold checkStatus.
  destruct (IntegrationFacts.stats_resolves c backend) as [v ->]. reflexivity.
Qed.

Lemma getAllStatus_resolves (e : Env) (b : Backends) :
  getAllStatus e b = resolve (all_connected e).
Proof.
  unfold getAllStatus, check. rewrite !checkStatus_true. reflexivity.
Qed.

Lemma getDashboardData_resolves (b : Backends) :
  exists snapshot, getDashboardData b = resolve snapshot.
Proof.
  unfold getDashboardData.
  destruct (IntegrationFacts.stats_resolves humanProtocol (b humanProtocol))
    as [v1 ->].
  destruct (IntegrationFacts.stats_resolves goodDollar (b goodDollar))
    as [v2 ->].
  destruct (IntegrationFacts.stats_resolves nillion (b nillion)) as [v3 ->].
  destruct (IntegrationFacts.stats_resolves torProject (b torProject))
    as [v4 ->].
  destruct (IntegrationFacts.stats_resolves edgeCity (b edgeCity)) as [v5 ->].
  destruct (IntegrationFacts.stats_resolves logos (b logos)) as [v6 ->].
  destruct (IntegrationFacts.stats_resolves bento (b bento)) as [v7 ->].
  destruct (IntegrationFacts.stats_resolves internetArchive
              (b internetArchive)) as [v8 ->].
  destruct (IntegrationFacts.stats_resolves numbersProtocol
              (b numbersProtocol)) as [v9 ->].
  eexists. reflexivity.
Qed.

(** X12: the status check cannot see a failure.  Whatever the services
    answer, also when every request is rejected, getAllStatus resolves
    with its nine entries and each of them says connected: true. *)
Theorem status_is_always_connected (e : Env) (b : Backends) :
  exists report,
    getAllStatus e b = resolve report
    /\ fst <$> report
       = ["humanProtocol"; "nillion"; "edgeCity"; "logos"; "numbersProtocol";
          "goodDollar"; "internetArchive"; "torProject"; "bento"]
    /\ Forall (fun entry => connected (snd entry) = true) report.
Proof.
  exists (all_connected e). split; [apply getAllStatus_resolves|].
  split; [reflexivity|]. repeat constructor.
Qed.

(** X13: loading the integrations page always ends with the spinner off,
    the nine status entries and the snapshot in the state, and no error
    shown, whatever the services answer to the two rounds of requests. *)
Theorem page_load_never_shows_an_error (e : Env) (forStatus forData : Backends)
    (page : Page) :
  exists report snapshot,
    getAllStatus e forStatus = resolve report
    /\ getDashboardData forData = resolve snapshot
    /\ loadDashboardData e forStatus forData page
       = mkPage report (Some snapshot) false (errorsShown page).
Proof.
  pose proof (getAllStatus_resolves e forStatus) as Hs.
  destruct (getDashboardData_resolves forData) as (snapshot & Hd).
  eexists. exists snapshot. split; [exact Hs|]. split; [exact Hd|].
  unfold loadDashboardData, Promise_all2. rewrite Hs, Hd. reflexivity.
Qed.

End StatusFacts.

Module ClaimFacts.
Import Integrations GoodDollarSDK.

Lemma getTime_isoTime (t : Z) : getTime (isoTime t) = Some t.
Proof.
  unfold getTime, isoTime, Num.ofZ. simpl.
  rewrite (Qred_identity (inject_Z t)) by apply Z.gcd_1_r. reflexivity.
Qed.

Lemma ofZ_lt (a b : Z) : Num.ofZ a < Num.ofZ b <-> (a < b)%Z.
Proof.
  unfold Qclt. rewrite !GoalFacts.this_ofZ. now rewrite <- Zlt_Qlt.
Qed.

Lemma claimed_today_iff (now_ t : Z) :
  claimed_today now_ (Some t) = true <-> (now_ - t < 86400000)%Z.
Proof.
  unfold claimed_today. rewrite NumFacts.ltb_lt.
  assert (Hc : 0 < Num.ofZ (1000 * 60 * 60))
    by (apply NumFacts.ltb_lt; reflexivity).
  rewrite (Qcmult_lt_mono_pos_r _ _ _ Hc).
  replace (Num.ofZ (now_ - t) / Num.ofZ (1000 * 60 * 60)
           * Num.ofZ (1000 * 60 * 60))
    with (Num.ofZ (now_ - t)).
  - replace (Num.ofZ 24 * Num.ofZ (1000 * 60 * 60)) with (Num.ofZ 86400000)
      by (apply Qc_is_canon; reflexivity).
    apply ofZ_lt.
  - field. intros H. rewrite H in Hc. now apply Qclt_not_eq in Hc.
Qed.

Lemma getAccount_found (w : string) (fields : list (string * Value)) :
  truthy (lookup_field "exists" fields) = true ->
  exists account,
    getAccount w (resolve (Object fields)) = resolve (Some account)
    /\ address account = w
    /\ lastClaim account
       = or_else (lookup_field "lastClaim" fields) (isoTime 0).
Proof.
  intros Hex. unfold getAccount. simpl. rewrite Hex. simpl.
  eexists. split; [reflexivity|]. split; reflexivity.
Qed.


(** X14: the SDK's claim enforces the cooldown.  When the account exists
    and its lastClaim is less than 24 hours before now, claimUBI rejects
    with "UBI already claimed today. Please wait 24 hours between claims."
    whatever the claim request would do; from 24 hours on, a claim whose
    request succeeds resolves with a completed claim of "10" G$ stamped
    with the time of the call. *)
Theorem claimUBI_waits_24_hours (digest : Env -> string -> string -> string)
    (e : Env) (w : string) (fields : list (string * Value)) (t : Z)
    (ubiClaim : Promise Value) :
  truthy (lookup_field "exists" fields) = true ->
  lookup_field "lastClaim" fields = isoTime t ->
  ((now e - t < 86400000)%Z ->
     claimUBI digest e w (resolve (Object fields)) ubiClaim
     = reject
         (Error
            "UBI already claimed today. Please wait 24 hours between claims."))
  /\ ((86400000 <= now e - t)%Z ->
      forall answer,
        ubiClaim = resolve answer ->
        exists claim,
          claimUBI digest e w (resolve (Object fields)) ubiClaim
          = resolve claim
          /\ amount claim = "10"
          /\ currency claim = "G$"
          /\ claimStatus claim = "completed"
          /\ claimedAt claim = now e).
Proof.
  intros Hex Hlast.
  destruct (getAccount_found w fields Hex) as (account & Hacc & _ & Hl).
  assert (Htime : getTime (lastClaim account) = Some t).
  { rewrite Hl, Hlast. unfold or_else.
    destruct (truthy (isoTime t)) eqn:Ht; [apply getTime_isoTime|].
    unfold isoTime in Ht. simpl in Ht. apply negb_false_iff in Ht.
    apply bool_decide_eq_true_1 in Ht.
    assert (t = 0%Z) as ->.
    { apply (f_equal this) in Ht. pose proof (GoalFacts.this_ofZ t) as H.
      rewrite Ht in H. unfold Qeq in H. simpl in H. lia. }
    apply getTime_isoTime. }
  unfold claimUBI. rewrite Hacc. cbv [await resolve]. rewrite Htime. split.
  - intros Hlt. apply claimed_today_iff in Hlt. rewrite Hlt. reflexivity.
  - intros Hge answer ->.
    destruct (claimed_today (now e) (Some t)) eqn:Hc.
    + apply claimed_today_iff in Hc. lia.
    + eexists. split; [reflexivity|]. repeat split.
Qed.


End ClaimFacts.

Module GovernanceCases.
Import Governance GovernanceQueries Scenario Cases.

(** Carol's proposal, drawn with Math.random() = 0.25: quorum 15, and no
    execution a day later. *)
Lemma created_proposal_needs_votes_witness :
  exists p,
    fst (POST (at_ t0) "carol"
           (create_proposal "Community garden"
              "Turn the empty lot into a garden" "community" (Num.ofZ 500))
           initial) = ProposalCreated p
    /\ (10 <= quorum p <= 29)%Z
    /\ POST (at_ (t0 + day)) "carol" (execute_proposal (id p))
         (snd (POST (at_ t0) "carol"
                 (create_proposal "Community garden"
                    "Turn the empty lot into a garden" "community"
                    (Num.ofZ 500)) initial))
       = (QuorumNotMet,
          snd (POST (at_ t0) "carol"
                 (create_proposal "Community garden"
                    "Turn the empty lot into a garden" "community"
                    (Num.ofZ 500)) initial)).
Proof.
  assert (H0 : 0 <= random (at_ t0))
    by (apply NumFacts.ltb_ge; vm_compute; reflexivity).
  assert (H1 : random (at_ t0) < 1)
    by (apply NumFacts.ltb_lt; vm_compute; reflexivity).
  destruct (GovernanceMore.created_proposal_needs_votes (at_ t0) "carol"
              "Community garden" "Turn the empty lot into a garden"
              "community" (Num.ofZ 500) initial H0 H1)
    as (p & Hr & _ & _ & _ & _ & _ & _ & Hq & Hex).
  exists p. split; [exact Hr|]. split; [exact Hq|].
  exact (Hex (at_ (t0 + day)) "carol").
Defined.

(** The fifteenth voter's vote is still there after the execution and
    dave's vote. *)
Lemma accepted_vote_is_kept_witness :
  ballots
    (run [carol_executes; dave_votes]
       (snd (POST (at_ (t0 + 15 * hour)) (voter 15) (vote garden "for" None)
               after_14_votes))) !! voteKey garden (voter 15)
  = Some (mkVote garden (voter 15) "for" "" (t0 + 15 * hour)).
Proof.
  assert (Hu : voter 15 <> "") by (vm_compute; discriminate).
  assert (Hok : succeeded
                  (fst (POST (at_ (t0 + 15 * hour)) (voter 15)
                          (vote garden "for" None) after_14_votes)) = true)
    by (vm_compute; reflexivity).
  destruct (GovernanceMore.accepted_vote_is_kept (at_ (t0 + 15 * hour))
              (voter 15) garden "for" None after_14_votes Hu Hok
              [carol_executes; dave_votes] (at_ (t0 + 3 * day))) as [Hk _].
  exact Hk.
Defined.

(** After carol's proposal and fourteen votes on it, its tally counts no
    more than the ballots that name it. *)
Lemma tally_is_backed_by_ballots_witness :
  exists p,
    proposals (run (carol_proposes :: fourteen_ballots) initial) !! garden
    = Some p
    /\ (totalVotes (votes p)
        <= Z.of_nat
             (ballotsFor (run (carol_proposes :: fourteen_ballots) initial)
                garden))%Z.
Proof.
  pose proof (TallyFacts.tally_is_backed_by_ballots
                (carol_proposes :: fourteen_ballots) initial
                TallyFacts.initial_tallies_backed) as Hinv.
  assert (Hq : quorum
                 <$> proposals
                       (run (carol_proposes :: fourteen_ballots) initial)
                     !! garden = Some 15%Z) by (vm_compute; reflexivity).
  destruct (proposals (run (carol_proposes :: fourteen_ballots) initial)
              !! garden) as [p|] eqn:Hp; [|discriminate Hq].
  exists p. split; [reflexivity|]. exact (proj2 (proj2 (proj2 (Hinv garden p Hp)))).
Defined.

(** At the very millisecond of the deadline get-proposal tells dave he
    cannot vote, and his vote is accepted. *)
Lemma canVote_and_vote_witness :
  exists p,
    GET at_deadline (get_proposal (Some garden)) (Some "dave") after_14_votes
    = ProposalView p None false (votingDeadline p)
    /\ succeeded
         (fst (POST at_deadline "dave" (vote garden "for" None)
                 after_14_votes)) = true.
Proof.
  assert (Hg : garden <> "") by discriminate.
  assert (Hdl : votingDeadline <$> proposals after_14_votes !! garden
                = Some (t0 + 604800000)%Z) by (vm_compute; reflexivity).
  assert (Hb : ballots after_14_votes !! voteKey garden "dave" = None)
    by (vm_compute; reflexivity).
  destruct (proposals after_14_votes !! garden) as [p|] eqn:Hp;
    [|discriminate Hdl].
  injection Hdl as Hdl.
  destruct (GovernanceMore.canVote_and_vote at_deadline "dave" garden "for"
              None after_14_votes p Hg Hp)
    as (canVote & Hget & Hcan & Hvote & _).
  exists p. rewrite Hb in Hget, Hcan, Hvote. split.
  - rewrite Hget. destruct canVote; [|reflexivity].
    exfalso. destruct Hcan as [Hcan _]. destruct (Hcan eq_refl) as [_ Hlt].
    rewrite Hdl in Hlt. simpl in Hlt. lia.
  - apply Hvote. split; [reflexivity|]. rewrite Hdl. simpl. lia.
Defined.


End GovernanceCases.

Module ClaimCases.
Import Integrations GoodDollarSDK Scenario Cases.

(** An hour after the last claim the SDK refuses; a full day after, it
    pays. *)
Lemma claimUBI_waits_24_hours_witness :
  claimUBI digest (at_ t0) "0xA11CE"
    (resolve (Object (account_claimed_at (t0 - hour)))) claim_accepted
  = reject
      (Error "UBI already claimed today. Please wait 24 hours between claims.")
  /\ exists claim,
       claimUBI digest (at_ t0) "0xA11CE"
         (resolve (Object (account_claimed_at (t0 - day)))) claim_accepted
       = resolve claim
       /\ amount claim = "10"
       /\ claimStatus claim = "completed".
Proof.
  split.
  - destruct (ClaimFacts.claimUBI_waits_24_hours digest (at_ t0) "0xA11CE"
                (account_claimed_at (t0 - hour)) (t0 - hour) claim_accepted
                eq_refl eq_refl) as [Hsoon _].
    apply Hsoon. vm_compute. reflexivity.
  - destruct (ClaimFacts.claimUBI_waits_24_hours digest (at_ t0) "0xA11CE"
                (account_claimed_at (t0 - day)) (t0 - day) claim_accepted
                eq_refl eq_refl) as [_ Hlate].
    destruct (Hlate ltac:(vm_compute; discriminate) _ eq_refl)
      as (claim & Hc & Ha & _ & Hs & _).
    exists claim. split; [exact Hc|]. split; assumption.
Defined.


End ClaimCases.
